(** * Database GURU: prompt builder, generation client, session and history

    A shallow embedding of [gemini.service.ts] (class [GeminiService]) and
    [app.component.ts] (class [AppComponent]).  Of the two copies of the
    service in the repository, the one embedded is the one whose methods
    check that the client was initialised.

    - JavaScript strings are sequences of UTF-16 code units ([list N]).
    - The hosted model, [JSON.parse], [JSON.stringify], [Date.now],
      [confirm] and the storage quota are the environment: they appear as
      oracles, section variables or arguments.
    - An [async] method is modelled by the state it leaves behind when it
      runs without any other UI event interleaved with it. *)

From Stdlib Require Import List NArith ZArith QArith String Ascii Bool Sorted.
From stdpp Require Import gmap.
Import ListNotations.

#[local] Open Scope N_scope.
#[local] Set Warnings "-register-all".

(** ** JavaScript values used by the two classes *)

Module JS.

(** A string is the list of its UTF-16 code units. *)
Abbreviation str := (list N).

(** An ASCII literal of the source. *)
Definition lit (s : string) : str :=
  map N_of_ascii (list_ascii_of_string s).

(** The escape [\n] and the double quote of the template literals. *)
Definition nl : str := [10].
Definition dq : str := [34].

(** ECMAScript WhiteSpace and LineTerminator code units, the ones
    [String.prototype.trim] strips. *)
Definition is_whitespace (c : N) : bool :=
  match c with
  | 9 | 10 | 11 | 12 | 13 | 32 | 160 | 5760
  | 8232 | 8233 | 8239 | 8287 | 12288 | 65279 => true
  | _ => (8192 <=? c) && (c <=? 8202)
  end.

Fixpoint trimStart (s : str) : str :=
  match s with
  | c :: s' => if is_whitespace c then trimStart s' else s
  | [] => []
  end.

Definition trimEnd (s : str) : str := rev (trimStart (rev s)).

Definition trim (s : str) : str := trimEnd (trimStart s).

(** Truthiness of a string: only the empty string is falsy. *)
Definition truthy (s : str) : bool :=
  match s with [] => false | _ :: _ => true end.

(** What [+] appends to a string for a value that is a string or
    [undefined]: the string itself, or the text [undefined]. *)
Definition to_string (v : option str) : str :=
  match v with
  | Some s => s
  | None => lit "undefined"
  end.

(** [s.startsWith(pat)] *)
Fixpoint startsWith (s pat : str) : bool :=
  match pat, s with
  | [], _ => true
  | p :: pat', c :: s' => (p =? c) && startsWith s' pat'
  | _ :: _, [] => false
  end.

(** [s.includes(pat)] *)
Fixpoint includes (s pat : str) : bool :=
  startsWith s pat ||
  match s with
  | [] => false
  | _ :: s' => includes s' pat
  end.

(** What [JSON.parse] can return.  A number keeps its literal text. *)
Inductive JsonValue : Type :=
| JNull
| JBool (b : bool)
| JNumber (literal : str)
| JString (s : str)
| JArray (elements : list JsonValue)
| JObject (members : list (str * JsonValue)).

(** A thrown value: an [Error] with its message, or anything else. *)
Inductive Thrown : Type :=
| Error (message : str)
| NonError.

(** Completion of a call that may throw. *)
Inductive outcome (A : Type) : Type :=
| Return (a : A)
| Throw (e : Thrown).
Arguments Return {A} a.
Arguments Throw {A} e.

End JS.

Import JS.

(** ** gemini.service.ts *)

Module GeminiService.

(** [Type.OBJECT], [Type.STRING], [Type.ARRAY] of the SDK. *)
Inductive SchemaType : Type := OBJECT | STRING | ARRAY.

Inductive Schema : Type :=
| mkSchema (type : SchemaType) (description : option str)
           (properties : list (str * Schema)) (items : option Schema)
           (required : list str).

Record Prompts : Type := {
  systemInstruction : str;
  userPrompt : str;
  schema : option Schema
}.

(** The argument of [ai.models.generateContent] and
    [ai.models.generateContentStream]. *)
Record GenerateContentParameters : Type := {
  model : str;
  contents : str;
  config_systemInstruction : str;
  config_temperature : Q;
  config_responseMimeType : option str;
  config_responseSchema : option Schema
}.

(** What the transport does with a streaming request: it delivers some
    chunks, then signals the end ([None]) or rejects.  A chunk is given by
    its [text], which is [undefined] ([None]) for a chunk without text. *)
Record StreamResponse : Type := {
  chunks : list (option str);
  failure : option Thrown
}.

(** What the transport does with a single request: it rejects, or answers
    with a response whose [text] may be [undefined]. *)
Inductive ContentResponse : Type :=
| Rejected (e : Thrown)
| Response (text : option str).

(** The SDK client, as an oracle. *)
Record GoogleGenAI : Type := {
  generateContentStream : GenerateContentParameters -> StreamResponse;
  generateContent : GenerateContentParameters -> ContentResponse
}.

(** A request that left the client. *)
Inductive Call : Type :=
| StreamCall (p : GenerateContentParameters)
| ContentCall (p : GenerateContentParameters).

(** What the consumer of the async generator sees: the values it yields and
    how it completes. *)
Record Generated : Type := {
  yielded : list (option str);
  thrown : option Thrown
}.

Definition the_model : str := lit "gemini-2.5-flash".

Definition contextPreamble (schemaContext : str) : str :=
  if truthy (trim schemaContext) then
    lit "You MUST use the following provided context. Do not invent tables, columns, or data structures that are not in this context."
    ++ nl ++ nl ++ lit "CONTEXT:" ++ nl ++ lit "```" ++ nl
    ++ schemaContext ++ nl ++ lit "```" ++ nl ++ nl
  else [].

Definition optimizeSchema : Schema :=
  mkSchema OBJECT None
    [ (lit "summary",
       mkSchema STRING
         (Some (lit "A brief summary of the query's performance issues."))
         [] None []);
      (lit "recommendations",
       mkSchema ARRAY
         (Some (lit "A list of specific optimization recommendations."))
         []
         (Some (mkSchema OBJECT None
            [ (lit "title",
               mkSchema STRING
                 (Some (lit "A short title for the recommendation (e.g., 'Add Index')."))
                 [] None []);
              (lit "description",
               mkSchema STRING
                 (Some (lit "A detailed explanation of the recommendation and its benefits."))
                 [] None []) ]
            None
            [lit "title"; lit "description"]))
         []);
      (lit "optimizedQuery",
       mkSchema STRING
         (Some (lit "The fully optimized SQL query."))
         [] None []) ]
    None
    [lit "summary"; lit "recommendations"; lit "optimizedQuery"].

Definition getPrompts (feature db input schemaContext : str) : Prompts :=
  let contextPreamble := contextPreamble schemaContext in
  if decide (feature = lit "NL-to-SQL") then
    {| systemInstruction :=
         lit "You are a world-class database administrator and SQL expert specializing in "
         ++ db ++
         lit ". Your sole purpose is to convert natural language text into a single, syntactically perfect, and highly efficient "
         ++ db ++
         lit " SQL query based on the provided context. You ONLY output raw SQL code. You do not provide explanations, comments, or any text other than the SQL query itself. You do not use markdown code blocks.";
       userPrompt :=
         contextPreamble ++ lit "Convert the following request into a "
         ++ db ++ lit " SQL query: " ++ dq ++ input ++ dq;
       schema := None |}
  else if decide (feature = lit "Optimize Query") then
    {| systemInstruction :=
         lit "You are a world-class database performance tuning specialist for "
         ++ db ++
         lit ". Your task is to analyze a SQL query, using the provided schema context if available, and return a JSON object with your findings. You must provide a concise summary, a list of actionable recommendations with titles and descriptions, and the optimized version of the query.";
       userPrompt :=
         contextPreamble ++ lit "Please analyze and suggest optimizations for this "
         ++ db ++
         lit " SQL query, then return the results in the required JSON format:"
         ++ nl ++ nl ++ input;
       schema := Some optimizeSchema |}
  else if decide (feature = lit "Design Schema") then
    {| systemInstruction :=
         lit "You are a world-class database architect specializing in "
         ++ db ++
         lit ". Your task is to design a well-structured, normalized (3NF) database schema based on a set of requirements. You will provide the complete Data Definition Language (DDL) statements for "
         ++ db ++
         lit ", including tables, columns with appropriate data types, primary keys, foreign keys, and necessary indexes. You ONLY output raw SQL DDL code. You do not provide explanations (except as SQL comments) or any text other than the SQL DDL. You do not use markdown code blocks.";
       userPrompt :=
         lit "Design a " ++ db ++ lit " schema for the following requirements: "
         ++ dq ++ input ++ dq;
       schema := None |}
  else if decide (feature = lit "Explain SQL") then
    {| systemInstruction :=
         lit "You are a world-class database administrator and SQL expert specializing in "
         ++ db ++
         lit ". Your purpose is to explain a given SQL query in a clear, concise, and easy-to-understand manner, using the provided schema for context. Break down the query into its logical parts and explain what each part does and how they work together. Your explanation should be helpful for both beginners and experienced developers.";
       userPrompt :=
         contextPreamble ++ lit "Please explain this " ++ db
         ++ lit " SQL query step-by-step:" ++ nl ++ nl ++ input;
       schema := None |}
  else if decide (feature = lit "Analyze & Suggest") then
    {| systemInstruction :=
         lit "You are a world-class data analyst and database architect for "
         ++ db ++
         lit ". Your primary goal is to provide precise, actionable, and highly relevant suggestions. Before you provide a final answer, it is critical that you first evaluate the user's request and the provided context. If the request is vague, ambiguous, or lacks specific details, you MUST ask clarifying questions. Similarly, if the provided context (schema, data, etc.) is insufficient to give a high-quality, accurate answer, you MUST ask for more information. Do not make assumptions. Engage in a dialogue with the user to ensure you have all the necessary details before offering your expert analysis. Format your final response using markdown for readability.";
       userPrompt :=
         contextPreamble
         ++ lit "Based on the provided context, please analyze and provide suggestions for the following request: "
         ++ dq ++ input ++ dq;
       schema := None |}
  else
    {| systemInstruction := lit "You are a helpful assistant.";
       userPrompt := input;
       schema := None |}.

Definition not_initialized : str := lit "Gemini service is not initialized.".
Definition stream_failed : str :=
  lit "Failed to generate streaming response from AI.".
Definition empty_response : str :=
  lit "Received an empty response from the AI.".
Definition parse_failed : str :=
  lit "Failed to parse structured response from AI.".

(** The request built by [generateStream]. *)
Definition streamRequest (feature db input schemaContext : str)
  : GenerateContentParameters :=
  let p := getPrompts feature db input schemaContext in
  {| model := the_model;
     contents := userPrompt p;
     config_systemInstruction := systemInstruction p;
     config_temperature := 1 # 10;
     config_responseMimeType := None;
     config_responseSchema := None |}.

(** [generateStream]: the requests issued and what the generator does.
    Every failure inside the [try] is replaced by [stream_failed]. *)
Definition generateStream (ai : option GoogleGenAI)
    (feature db input schemaContext : str) : list Call * Generated :=
  match ai with
  | None => ([], {| yielded := []; thrown := Some (Error not_initialized) |})
  | Some ai =>
      let request := streamRequest feature db input schemaContext in
      let responseStream := generateContentStream ai request in
      ([StreamCall request],
       {| yielded := chunks responseStream;
          thrown := match failure responseStream with
                    | Some _ => Some (Error stream_failed)
                    | None => None
                    end |})
  end.

(** The request built by [generateStructured]. *)
Definition structuredRequest (db input schemaContext : str)
  : GenerateContentParameters :=
  let p := getPrompts (lit "Optimize Query") db input schemaContext in
  {| model := the_model;
     contents := userPrompt p;
     config_systemInstruction := systemInstruction p;
     config_temperature := 2 # 10;
     config_responseMimeType := Some (lit "application/json");
     config_responseSchema := schema p |}.

Section Structured.

(** [JSON.parse], which returns a value or throws a [SyntaxError]. *)
Variable JSON_parse : str -> outcome JsonValue.

(** The body of the [try] block of [generateStructured]. *)
Definition structuredBody (response : ContentResponse) : outcome JsonValue :=
  match response with
  | Rejected e => Throw e
  | Response text =>
      match text with
      | None | Some [] => Throw (Error empty_response)
      | Some text => JSON_parse text
      end
  end.

(** [generateStructured]: the [catch] replaces whatever the body threw. *)
Definition generateStructured (ai : option GoogleGenAI)
    (db input schemaContext : str) : list Call * outcome JsonValue :=
  match ai with
  | None => ([], Throw (Error not_initialized))
  | Some ai =>
      let request := structuredRequest db input schemaContext in
      ([ContentCall request],
       match structuredBody (generateContent ai request) with
       | Return result => Return result
       | Throw _ => Throw (Error parse_failed)
       end)
  end.

End Structured.

(** The fields the constructor sets: the client and the two signals. *)
Record Service : Type := {
  service_ai : option GoogleGenAI;
  service_error : option str;
  service_isInitialized : bool
}.

Definition api_key_not_set : str :=
  lit "API_KEY environment variable not set. Please configure it to use the application.".

Section Constructor.

(** [new GoogleGenAI({ apiKey })], which returns a client or throws. *)
Variable newGoogleGenAI : str -> outcome GoogleGenAI.

(** The body of the [try] block of the constructor, over the value of
    [process.env.API_KEY] ([None] when it is undefined). *)
Definition constructorBody (API_KEY : option str) : outcome GoogleGenAI :=
  match API_KEY with
  | None | Some [] => Throw (Error api_key_not_set)
  | Some apiKey => newGoogleGenAI apiKey
  end.

(** The constructor: a failure is kept in the error signal, not thrown. *)
Definition constructor (API_KEY : option str) : Service :=
  match constructorBody API_KEY with
  | Return client =>
      {| service_ai := Some client; service_error := None;
         service_isInitialized := true |}
  | Throw e =>
      {| service_ai := None;
         service_error :=
           Some (match e with
                 | Error message => message
                 | NonError => lit "An unknown initialization error occurred."
                 end);
         service_isInitialized := false |}
  end.

End Constructor.

End GeminiService.

Import GeminiService.

(** ** The second copy of the service

    The repository holds another [GeminiService], whose constructor throws
    when the key is missing and whose methods therefore do not check the
    client.  It shares the types of the first. *)

Module LegacyService.

Definition optimizeSchema : Schema :=
  mkSchema OBJECT None
    [ (lit "summary",
       mkSchema STRING
         (Some (lit "A brief summary of the query's performance issues."))
         [] None []);
      (lit "recommendations",
       mkSchema ARRAY
         (Some (lit "A list of specific optimization recommendations."))
         []
         (Some (mkSchema OBJECT None
            [ (lit "title",
               mkSchema STRING
                 (Some (lit "A short title for the recommendation (e.g., 'Add Index')."))
                 [] None []);
              (lit "description",
               mkSchema STRING
                 (Some (lit "A detailed explanation of the recommendation and its benefits."))
                 [] None []) ]
            None
            []))
         []);
      (lit "optimizedQuery",
       mkSchema STRING
         (Some (lit "The fully optimized SQL query."))
         [] None []) ]
    None
    [].

Definition getPrompts (feature db input schemaContext : str) : Prompts :=
  let contextPreamble :=
    if truthy (trim schemaContext) then
      lit "You MUST use the following provided context. Do not invent tables, columns, or data structures that are not in this context."
      ++ nl ++ nl ++ lit "CONTEXT:" ++ nl ++ lit "```" ++ nl
      ++ schemaContext ++ nl ++ lit "```" ++ nl ++ nl
    else [] in
  if decide (feature = lit "NL-to-SQL") then
    {| systemInstruction :=
         lit "You are a world-class database administrator and SQL expert specializing in "
         ++ db ++
         lit ". Your sole purpose is to convert natural language text into a single, syntactically perfect, and highly efficient "
         ++ db ++
         lit " SQL query based on the provided context. You ONLY output raw SQL code. You do not provide explanations, comments, or any text other than the SQL query itself. You do not use markdown code blocks.";
       userPrompt :=
         contextPreamble ++ lit "Convert the following request into a "
         ++ db ++ lit " SQL query: " ++ dq ++ input ++ dq;
       schema := None |}
  else if decide (feature = lit "Optimize Query") then
    {| systemInstruction :=
         lit "You are a world-class database performance tuning specialist for "
         ++ db ++
         lit ". Your task is to analyze a SQL query, using the provided schema context if available, and return a JSON object with your findings. You must provide a concise summary, a list of actionable recommendations with titles and descriptions, and the optimized version of the query.";
       userPrompt :=
         contextPreamble ++ lit "Please analyze and suggest optimizations for this "
         ++ db ++
         lit " SQL query, then return the results in the required JSON format:"
         ++ nl ++ nl ++ input;
       schema := Some optimizeSchema |}
  else if decide (feature = lit "Design Schema") then
    {| systemInstruction :=
         lit "You are a world-class database architect specializing in "
         ++ db ++
         lit ". Your task is to design a well-structured, normalized (3NF) database schema based on a set of requirements. You will provide the complete Data Definition Language (DDL) statements for "
         ++ db ++
         lit ", including tables, columns with appropriate data types, primary keys, foreign keys, and necessary indexes. You ONLY output raw SQL DDL code. You do not provide explanations (except as SQL comments) or any text other than the SQL DDL. You do not use markdown code blocks.";
       userPrompt :=
         lit "Design a " ++ db ++ lit " schema for the following requirements: "
         ++ dq ++ input ++ dq;
       schema := None |}
  else if decide (feature = lit "Explain SQL") then
    {| systemInstruction :=
         lit "You are a world-class database administrator and SQL expert specializing in "
         ++ db ++
         lit ". Your purpose is to explain a given SQL query in a clear, concise, and easy-to-understand manner, using the provided schema for context. Break down the query into its logical parts and explain what each part does and how they work together. Your explanation should be helpful for both beginners and experienced developers.";
       userPrompt :=
         contextPreamble ++ lit "Please explain this " ++ db
         ++ lit " SQL query step-by-step:" ++ nl ++ nl ++ input;
       schema := None |}
  else if decide (feature = lit "Analyze & Suggest") then
    {| systemInstruction :=
         lit "You are an expert data analyst and database architect specializing in "
         ++ db ++
         lit ". Your task is to analyze the provided data context (e.g., schema, sample data) and provide insightful suggestions based on the user's request. Your analysis should be clear, well-structured, and actionable. Format your response using markdown for readability.";
       userPrompt :=
         contextPreamble
         ++ lit "Based on the provided context, please analyze and provide suggestions for the following request: "
         ++ dq ++ input ++ dq;
       schema := None |}
  else
    {| systemInstruction := lit "You are a helpful assistant.";
       userPrompt := input;
       schema := None |}.

(** The constructor throws when the key is missing. *)
Definition constructor (newGoogleGenAI : str -> outcome GoogleGenAI)
    (API_KEY : option str) : outcome GoogleGenAI :=
  match API_KEY with
  | None | Some [] => Throw (Error (lit "API_KEY environment variable not set"))
  | Some apiKey => newGoogleGenAI apiKey
  end.

Definition generateStream (ai : GoogleGenAI)
    (feature db input schemaContext : str) : list Call * Generated :=
  let p := getPrompts feature db input schemaContext in
  let request :=
    {| model := the_model;
       contents := userPrompt p;
       config_systemInstruction := systemInstruction p;
       config_temperature := 1 # 10;
       config_responseMimeType := None;
       config_responseSchema := None |} in
  let responseStream := generateContentStream ai request in
  ([StreamCall request],
   {| yielded := chunks responseStream;
      thrown := match failure responseStream with
                | Some _ => Some (Error stream_failed)
                | None => None
                end |}).

Definition generateStructured (JSON_parse : str -> outcome JsonValue)
    (ai : GoogleGenAI) (db input schemaContext : str)
  : list Call * outcome JsonValue :=
  let p := getPrompts (lit "Optimize Query") db input schemaContext in
  let request :=
    {| model := the_model;
       contents := userPrompt p;
       config_systemInstruction := systemInstruction p;
       config_temperature := 2 # 10;
       config_responseMimeType := Some (lit "application/json");
       config_responseSchema := schema p |} in
  let body :=
    match generateContent ai request with
    | Rejected e => Throw e
    | Response text =>
        match text with
        | None | Some [] => Throw (Error empty_response)
        | Some text => JSON_parse text
        end
    end in
  ([ContentCall request],
   match body with
   | Return result => Return result
   | Throw _ => Throw (Error parse_failed)
   end).

End LegacyService.

(** ** app.component.ts *)

Module AppComponent.

Inductive Feature : Type :=
| NLtoSQL | OptimizeQuery | DesignSchema | ExplainSQL | AnalyzeSuggest.

#[global] Instance Feature_eq_dec : EqDecision Feature.
Proof. solve_decision. Defined.

(** The string a [Feature] value is. *)
Definition feature_name (f : Feature) : str :=
  match f with
  | NLtoSQL => lit "NL-to-SQL"
  | OptimizeQuery => lit "Optimize Query"
  | DesignSchema => lit "Design Schema"
  | ExplainSQL => lit "Explain SQL"
  | AnalyzeSuggest => lit "Analyze & Suggest"
  end.

Definition features : list Feature :=
  [NLtoSQL; OptimizeQuery; DesignSchema; ExplainSQL; AnalyzeSuggest].

Definition databases : list str :=
  [lit "PostgreSQL"; lit "MySQL"; lit "SQL Server"; lit "Oracle"; lit "SQLite"].

(** [optimizationResult] holds whatever [JSON.parse] returned, cast to
    [OptimizationResult] without a check; [JNull] is [null]. *)
Record HistoryItem : Type := {
  item_id : Z;
  item_feature : Feature;
  item_db : str;
  item_userInput : str;
  item_schemaContext : str;
  item_uploadedFileName : str;
  item_output : str;
  item_optimizationResult : JsonValue
}.

(** The signals of the component. *)
Record Signals : Type := {
  selectedFeature : Feature;
  selectedDb : str;
  schemaContext : str;
  uploadedFileName : str;
  userInput : str;
  output : str;
  optimizationResult : JsonValue;
  loading : bool;
  error : option str;
  copied : bool;
  history : list HistoryItem;
  isContextVisible : bool
}.

(** The component with what it acts on: [localStorage], and the requests
    that left through the service so far (newest last). *)
Record App : Type := {
  signals : Signals;
  localStorage : gmap str str;
  sent : list Call
}.

(** What one run of [generate] meets: the service's client ([None] when the
    service failed to initialise), the reading of [Date.now()], and whether
    [localStorage.setItem] throws (quota). *)
Record World : Type := {
  ai : option GoogleGenAI;
  now : Z;
  quotaExceeded : bool
}.

Definition storageKey : str := lit "db_guru_history".

Definition set_output (v : str) (s : Signals) : Signals :=
  {| selectedFeature := selectedFeature s; selectedDb := selectedDb s;
     schemaContext := schemaContext s; uploadedFileName := uploadedFileName s;
     userInput := userInput s; output := v;
     optimizationResult := optimizationResult s; loading := loading s;
     error := error s; copied := copied s; history := history s;
     isContextVisible := isContextVisible s |}.

Definition set_optimizationResult (v : JsonValue) (s : Signals) : Signals :=
  {| selectedFeature := selectedFeature s; selectedDb := selectedDb s;
     schemaContext := schemaContext s; uploadedFileName := uploadedFileName s;
     userInput := userInput s; output := output s;
     optimizationResult := v; loading := loading s;
     error := error s; copied := copied s; history := history s;
     isContextVisible := isContextVisible s |}.

Definition set_loading (v : bool) (s : Signals) : Signals :=
  {| selectedFeature := selectedFeature s; selectedDb := selectedDb s;
     schemaContext := schemaContext s; uploadedFileName := uploadedFileName s;
     userInput := userInput s; output := output s;
     optimizationResult := optimizationResult s; loading := v;
     error := error s; copied := copied s; history := history s;
     isContextVisible := isContextVisible s |}.

Definition set_error (v : option str) (s : Signals) : Signals :=
  {| selectedFeature := selectedFeature s; selectedDb := selectedDb s;
     schemaContext := schemaContext s; uploadedFileName := uploadedFileName s;
     userInput := userInput s; output := output s;
     optimizationResult := optimizationResult s; loading := loading s;
     error := v; copied := copied s; history := history s;
     isContextVisible := isContextVisible s |}.

Definition set_history (v : list HistoryItem) (s : Signals) : Signals :=
  {| selectedFeature := selectedFeature s; selectedDb := selectedDb s;
     schemaContext := schemaContext s; uploadedFileName := uploadedFileName s;
     userInput := userInput s; output := output s;
     optimizationResult := optimizationResult s; loading := loading s;
     error := error s; copied := copied s; history := v;
     isContextVisible := isContextVisible s |}.

(** The form fields, which the template binds and the user edits. *)
Record Form : Type := {
  form_feature : Feature;
  form_db : str;
  form_schemaContext : str;
  form_uploadedFileName : str;
  form_userInput : str
}.

Definition fill (f : Form) (s : Signals) : Signals :=
  {| selectedFeature := form_feature f; selectedDb := form_db f;
     schemaContext := form_schemaContext f;
     uploadedFileName := form_uploadedFileName f;
     userInput := form_userInput f; output := output s;
     optimizationResult := optimizationResult s; loading := loading s;
     error := error s; copied := copied s; history := history s;
     isContextVisible := isContextVisible s |}.

Definition on_signals (f : Signals -> Signals) (a : App) : App :=
  {| signals := f (signals a); localStorage := localStorage a;
     sent := sent a |}.

(** The state a new component starts from, before the constructor loads the
    history. *)
Definition initial : Signals :=
  {| selectedFeature := NLtoSQL; selectedDb := lit "PostgreSQL";
     schemaContext := []; uploadedFileName := []; userInput := [];
     output := []; optimizationResult := JNull; loading := false;
     error := None; copied := false; history := [];
     isContextVisible := true |}.

(** [clearSchemaContext] (the file input element is not modelled). *)
Definition clearSchemaContext (s : Signals) : Signals :=
  fill {| form_feature := selectedFeature s; form_db := selectedDb s;
          form_schemaContext := []; form_uploadedFileName := [];
          form_userInput := userInput s |} s.

Definition selectFeature (feature : Feature) (s : Signals) : Signals :=
  clearSchemaContext
    (set_error None (set_optimizationResult JNull (set_output []
      (fill {| form_feature := feature; form_db := selectedDb s;
               form_schemaContext := schemaContext s;
               form_uploadedFileName := uploadedFileName s;
               form_userInput := [] |} s)))).


(** The message computed by the [catch] block of [generate]. *)
Definition rawMessage (e : Thrown) : str :=
  match e with
  | Error message => message
  | NonError => lit "An unknown error occurred."
  end.

Definition context_too_large : str :=
  lit "Error: The provided context is too large. Please use a smaller file or reduce the amount of text in the context field.".

Definition generic_prefix : str :=
  lit "An error occurred while communicating with the AI: ".

Definition displayMessage (e : Thrown) : str :=
  let rawMessage := rawMessage e in
  if includes rawMessage (lit "token count exceeds")
     || includes rawMessage (lit "400")
  then context_too_large
  else generic_prefix ++ rawMessage.

(** The guard at the top of [generate]. *)
Definition ignored (s : Signals) : bool :=
  negb (truthy (trim (userInput s))) || loading s.

(** [output.update(current => current + chunk)] *)
Definition append_chunk (s : Signals) (chunk : option str) : Signals :=
  set_output (output s ++ to_string chunk) s.

Section Persistence.

(** [JSON.stringify] on the history list and [JSON.parse] on the stored
    text, read at the type the component casts it to. *)
Variable JSON_stringify : list HistoryItem -> str.
Variable JSON_parse_history : str -> outcome (list HistoryItem).

(** [saveHistoryToStorage]: a failing [setItem] is caught and logged. *)
Definition saveHistoryToStorage (w : World) (a : App) : App :=
  if quotaExceeded w then a
  else {| signals := signals a;
          localStorage :=
            <[storageKey := JSON_stringify (history (signals a))]>
              (localStorage a);
          sent := sent a |}.

(** [addToHistory]; [item_id] of the argument is ignored, the way
    [Omit<HistoryItem, 'id'>] has none. *)
Definition addToHistory (w : World) (item : HistoryItem) (a : App) : App :=
  let newItem :=
    {| item_id := now w; item_feature := item_feature item;
       item_db := item_db item; item_userInput := item_userInput item;
       item_schemaContext := item_schemaContext item;
       item_uploadedFileName := item_uploadedFileName item;
       item_output := item_output item;
       item_optimizationResult := item_optimizationResult item |} in
  saveHistoryToStorage w
    (on_signals (fun s => set_history (newItem :: history s) s) a).

(** [clearHistory], given the answer of [confirm]. *)
Definition clearHistory (confirmed : bool) (a : App) : App :=
  if confirmed then
    {| signals := set_history [] (signals a);
       localStorage := delete storageKey (localStorage a);
       sent := sent a |}
  else a.

(** [loadHistoryFromStorage] *)
Definition loadHistoryFromStorage (a : App) : App :=
  match localStorage a !! storageKey with
  | Some storedHistory =>
      if truthy storedHistory then
        match JSON_parse_history storedHistory with
        | Return h => on_signals (set_history h) a
        | Throw _ => on_signals (set_history []) a
        end
      else a
  | None => a
  end.

(** The constructor, over the storage the page finds. *)
Definition construct (storage : gmap str str) : App :=
  loadHistoryFromStorage
    {| signals := initial; localStorage := storage; sent := [] |}.

Variable JSON_parse : str -> outcome JsonValue.

(** [generate] *)
Definition generate (w : World) (a : App) : App :=
  let s := signals a in
  if ignored s then a
  else
    let s1 :=
      set_error None (set_optimizationResult JNull (set_output []
        (set_loading true s))) in
    let feature := selectedFeature s in
    let db := selectedDb s in
    let input := userInput s in
    let schema := schemaContext s in
    let item finalOutput finalOptimizationResult :=
      {| item_id := 0%Z; item_feature := feature; item_db := db;
         item_userInput := input; item_schemaContext := schema;
         item_uploadedFileName := uploadedFileName s;
         item_output := finalOutput;
         item_optimizationResult := finalOptimizationResult |} in
    let finish (calls : list Call) (a' : App) : App :=
      {| signals := set_loading false (signals a');
         localStorage := localStorage a';
         sent := sent a' ++ calls |} in
    let with_signals (s' : Signals) : App :=
      {| signals := s'; localStorage := localStorage a; sent := sent a |} in
    match feature with
    | OptimizeQuery =>
        let '(calls, r) := generateStructured JSON_parse (ai w) db input schema in
        match r with
        | Return result =>
            finish calls
              (addToHistory w (item [] result)
                 (with_signals (set_optimizationResult result s1)))
        | Throw e =>
            finish calls
              (with_signals (set_error (Some (displayMessage e)) s1))
        end
    | _ =>
        let '(calls, stream) :=
          generateStream (ai w) (feature_name feature) db input schema in
        let s2 := fold_left append_chunk (yielded stream) s1 in
        match thrown stream with
        | None =>
            finish calls
              (addToHistory w (item (output s2) JNull) (with_signals s2))
        | Some e =>
            finish calls
              (with_signals (set_error (Some (displayMessage e)) s2))
        end
    end.

(** A run of [generate] succeeded when the guard let it through and it
    left no error behind. *)
Definition succeeded (w : World) (a : App) : bool :=
  negb (ignored (signals a)) &&
  match error (signals (generate w a)) with
  | None => true
  | Some _ => false
  end.

(** One round of use: the user edits the form, then asks to generate. *)
Definition round (a : App) (r : Form * World) : App :=
  generate (snd r) (on_signals (fill (fst r)) a).

Definition round_succeeded (a : App) (r : Form * World) : bool :=
  succeeded (snd r) (on_signals (fill (fst r)) a).

(** A session of rounds, and whether every round of it succeeded. *)
Definition session (rounds : list (Form * World)) (a : App) : App :=
  fold_left round rounds a.

Fixpoint all_succeeded (rounds : list (Form * World)) (a : App) : bool :=
  match rounds with
  | [] => true
  | r :: rounds' => round_succeeded a r && all_succeeded rounds' (round a r)
  end.

(** How many rounds of a session succeeded. *)
Fixpoint successes (rounds : list (Form * World)) (a : App) : nat :=
  match rounds with
  | [] => 0%nat
  | r :: rounds' =>
      ((if round_succeeded a r then 1 else 0) + successes rounds' (round a r))%nat
  end.

End Persistence.

Definition set_isContextVisible (v : bool) (s : Signals) : Signals :=
  {| selectedFeature := selectedFeature s; selectedDb := selectedDb s;
     schemaContext := schemaContext s; uploadedFileName := uploadedFileName s;
     userInput := userInput s; output := output s;
     optimizationResult := optimizationResult s; loading := loading s;
     error := error s; copied := copied s; history := history s;
     isContextVisible := v |}.

Definition toggleContextVisibility (s : Signals) : Signals :=
  set_isContextVisible (negb (isContextVisible s)) s.

(** What a file selection leads to: no file was chosen, the reader loads
    the first file, or the reader fails (its error may have no message). *)
Inductive FileEvent : Type :=
| NoFiles
| FileLoaded (name text : str)
| FileError (message : option str).

(** [onFileSelected], with the callback of the reader that fires. *)
Definition onFileSelected (ev : FileEvent) (s : Signals) : Signals :=
  match ev with
  | NoFiles => s
  | FileLoaded name text =>
      set_isContextVisible true
        (fill {| form_feature := selectedFeature s; form_db := selectedDb s;
                 form_schemaContext := text; form_uploadedFileName := name;
                 form_userInput := userInput s |} s)
  | FileError message =>
      set_error
        (Some (lit "Error reading file: "
               ++ match message with
                  | Some m => m
                  | None => lit "undefined"
                  end)) s
  end.

(** The [switch] of the [placeholder] signal. *)
Definition placeholder_of (feature : str) : str :=
  if decide (feature = lit "NL-to-SQL") then
    lit "e.g., Show me all users from Canada who signed up in the last month"
  else if decide (feature = lit "Optimize Query") then
    lit "e.g., SELECT * FROM users u JOIN orders o ON u.id = o.user_id WHERE u.country = 'Canada'"
  else if decide (feature = lit "Design Schema") then
    lit "e.g., Design a schema for a simple blog with users, posts, and comments"
  else if decide (feature = lit "Explain SQL") then
    lit "e.g., SELECT u.name, COUNT(p.id) FROM users u LEFT JOIN posts p ON u.id = p.user_id GROUP BY u.name HAVING COUNT(p.id) > 5;"
  else if decide (feature = lit "Analyze & Suggest") then
    lit "e.g., Analyze this schema and suggest three improvements for performance."
  else [].

Definition placeholder (s : Signals) : str :=
  placeholder_of (feature_name (selectedFeature s)).

End AppComponent.

Import AppComponent.

(** ** Sample environments for the examples *)

Module Samples.

(** A client that answers every request the same way. *)
Definition client (r : StreamResponse) (c : ContentResponse) : GoogleGenAI :=
  {| generateContentStream := fun _ => r; generateContent := fun _ => c |}.

Definition world (r : StreamResponse) (c : ContentResponse) (t : Z) : World :=
  {| ai := Some (client r c); now := t; quotaExceeded := false |}.

(** A stream that delivers the given chunks and ends. *)
Definition ends (cs : list str) : StreamResponse :=
  {| chunks := map Some cs; failure := None |}.

(** A stream that delivers the given chunks and then fails. *)
Definition breaks (cs : list str) (message : string) : StreamResponse :=
  {| chunks := map Some cs; failure := Some (Error (lit message)) |}.

Definition unused : ContentResponse := Response None.

Definition form (f : Feature) (input context : string) : Form :=
  {| form_feature := f; form_db := lit "PostgreSQL";
     form_schemaContext := lit context; form_uploadedFileName := [];
     form_userInput := lit input |}.

(** A new component over an empty storage, and one with the form filled. *)
Definition fresh : App :=
  {| signals := initial; localStorage := ∅; sent := [] |}.

Definition ready (f : Feature) (input context : string) : App :=
  on_signals (fill (form f input context)) fresh.

(** [JSON.parse] on the two texts the examples feed it. *)
Definition parse (text : str) : outcome JsonValue :=
  if decide (text = lit "null") then Return JNull
  else if decide (text = lit "{}") then Return (JObject [])
  else Throw (Error (lit "Unexpected token")).

(** Stand-ins for the history serialiser and parser; no statement below
    depends on what they return. *)
Definition stringify (h : list HistoryItem) : str := lit "[]".

Definition parse_history (text : str) : outcome (list HistoryItem) :=
  if decide (text = lit "[]") then Return []
  else Throw (Error (lit "Unexpected token")).

(** A serialiser and a parser that know one history: the text stands for
    the history [saved], and only for it. *)
Definition saved : list HistoryItem :=
  [ {| item_id := 1000%Z; item_feature := NLtoSQL;
       item_db := lit "PostgreSQL"; item_userInput := lit "list the users";
       item_schemaContext := []; item_uploadedFileName := [];
       item_output := lit "SELECT * FROM users;";
       item_optimizationResult := JNull |} ].

Definition saved_text : str := lit "[{...}]".

Definition stringify_saved (h : list HistoryItem) : str := saved_text.

Definition parse_saved (text : str) : outcome (list HistoryItem) :=
  if decide (text = saved_text) then Return saved
  else Throw (Error (lit "Unexpected token")).

(** [new GoogleGenAI] that accepts every key. *)
Definition connect (r : StreamResponse) (c : ContentResponse) (apiKey : str)
  : outcome GoogleGenAI :=
  Return (client r c).

End Samples.

(** ** Facts about the string operations *)

#[local] Arguments lit : simpl never.
#[local] Arguments getPrompts : simpl never.
#[local] Arguments streamRequest : simpl never.
#[local] Arguments structuredRequest : simpl never.
#[local] Arguments displayMessage : simpl never.
#[local] Arguments feature_name : simpl never.

Lemma trimStart_nil_iff (s : str) :
  trimStart s = [] <-> forallb is_whitespace s = true.
Proof.
  induction s as [|c s IH]; simpl; [tauto|].
  destruct (is_whitespace c); simpl; [exact IH|]. split; discriminate.
Qed.

Lemma In_trimStart (c : N) (s : str) :
  In c s -> is_whitespace c = false -> In c (trimStart s).
Proof.
  intros Hin Hc. induction s as [|d s IH]; simpl in *; [tauto|].
  destruct Hin as [->|Hin].
  - rewrite Hc. left; reflexivity.
  - destruct (is_whitespace d); [auto | right; exact Hin].
Qed.

(** A string trims to the empty string exactly when it is all whitespace. *)
Lemma trim_nil_iff (s : str) :
  trim s = [] <-> forallb is_whitespace s = true.
Proof.
  unfold trim, trimEnd. split.
  - intros H. apply (f_equal (@rev N)) in H. rewrite rev_involutive in H.
    simpl in H. apply trimStart_nil_iff in H.
    rewrite forallb_forall in H. apply forallb_forall. intros c Hc.
    destruct (is_whitespace c) eqn:E; [reflexivity|].
    assert (In c (trimStart s)) as Hin by (apply In_trimStart; assumption).
    rewrite In_rev in Hin. rewrite (H c Hin) in E. discriminate.
  - intros H. apply trimStart_nil_iff in H. rewrite H. reflexivity.
Qed.

Lemma truthy_false_iff (s : str) : truthy s = false <-> s = [].
Proof. destruct s; simpl; split; congruence. Qed.

Lemma startsWith_app (pat rest : str) : startsWith (pat ++ rest) pat = true.
Proof.
  induction pat as [|p pat IH]; simpl; [destruct rest; reflexivity|].
  rewrite N.eqb_refl. exact IH.
Qed.

Lemma startsWith_spec (s pat : str) :
  startsWith s pat = true <-> exists rest, s = pat ++ rest.
Proof.
  split.
  - revert s. induction pat as [|p pat IH]; intros s H.
    + exists s. reflexivity.
    + destruct s as [|c s]; simpl in H; [discriminate|].
      apply andb_true_iff in H as [Hpc H]. apply N.eqb_eq in Hpc.
      destruct (IH s H) as [rest ->]. exists rest. simpl. congruence.
  - intros [rest ->]. apply startsWith_app.
Qed.

Lemma includes_spec (s pat : str) :
  includes s pat = true <-> exists before after, s = before ++ pat ++ after.
Proof.
  split.
  - induction s as [|c s IH]; cbn [includes]; intros H.
    + rewrite orb_false_r in H. apply startsWith_spec in H as [rest Hs].
      exists [], rest. exact Hs.
    + apply orb_true_iff in H as [H|H].
      * apply startsWith_spec in H as [rest Hs]. exists [], rest. exact Hs.
      * destruct (IH H) as (before & after & ->).
        exists (c :: before), after. reflexivity.
  - intros (before & after & ->).
    induction before as [|c before IH].
    + rewrite app_nil_l. destruct (pat ++ after) eqn:E; cbn [includes];
        rewrite <- E, startsWith_app; reflexivity.
    + rewrite <- app_comm_cons. cbn [includes]. rewrite IH. apply orb_true_r.
Qed.

(** ** Facts about the prompt builder *)

Ltac switch_on_feature :=
  unfold getPrompts;
  repeat (rewrite decide_False
            by (let E := fresh in intros E; vm_compute in E; discriminate E));
  try (rewrite decide_True by reflexivity);
  try reflexivity.

Lemma contextPreamble_blank (ctx : str) :
  truthy (trim ctx) = false -> contextPreamble ctx = [].
Proof. intros H. unfold contextPreamble. rewrite H. reflexivity. Qed.

Lemma contextPreamble_present (ctx : str) :
  truthy (trim ctx) = true ->
  contextPreamble ctx =
    (lit "You MUST use the following provided context. Do not invent tables, columns, or data structures that are not in this context."
     ++ nl ++ nl ++ lit "CONTEXT:" ++ nl ++ lit "```" ++ nl)
    ++ ctx ++ (nl ++ lit "```" ++ nl ++ nl).
Proof.
  intros H. unfold contextPreamble. rewrite H.
  repeat rewrite <- app_assoc. reflexivity.
Qed.

(** Every feature but Design Schema puts the preamble in front of the
    prompt it builds without context. *)
Lemma userPrompt_preamble (f : Feature) (db input ctx : str) :
  f <> DesignSchema ->
  userPrompt (getPrompts (feature_name f) db input ctx) =
  contextPreamble ctx ++ userPrompt (getPrompts (feature_name f) db input []).
Proof.
  intros Hf. destruct f; try congruence; unfold feature_name; switch_on_feature.
Qed.

(** The Design Schema prompt is built from the dialect and the input only. *)
Lemma userPrompt_design_schema (db input ctx : str) :
  userPrompt (getPrompts (feature_name DesignSchema) db input ctx) =
  lit "Design a " ++ db ++ lit " schema for the following requirements: "
  ++ dq ++ input ++ dq.
Proof. unfold feature_name. switch_on_feature. Qed.

(** No branch of [getPrompts] uses the context in the instruction. *)
Lemma systemInstruction_ignores_context (feature db input ctx ctx' : str) :
  systemInstruction (getPrompts feature db input ctx) =
  systemInstruction (getPrompts feature db input ctx').
Proof. unfold getPrompts. repeat case_decide; reflexivity. Qed.

Lemma systemInstruction_not_prefixed (f : Feature) (db input ctx : str) :
  truthy (trim ctx) = true ->
  startsWith (systemInstruction (getPrompts (feature_name f) db input ctx))
             (contextPreamble ctx) = false.
Proof.
  intros H. unfold contextPreamble. rewrite H.
  destruct f; unfold feature_name; switch_on_feature.
Qed.

(** C3, as stated, fails: with the context [users(id)] the NL-to-SQL system
    instruction neither starts with the context block nor contains the
    context, and the Design Schema user prompt does not start with the
    block either. *)
Lemma system_instruction_not_prefixed_example :
  let ctx := lit "users(id)" in
  let p := getPrompts (feature_name NLtoSQL) (lit "PostgreSQL")
             (lit "list the users") ctx in
  let d := getPrompts (feature_name DesignSchema) (lit "PostgreSQL")
             (lit "a blog") ctx in
  truthy (trim ctx) = true /\
  startsWith (systemInstruction p) (contextPreamble ctx) = false /\
  includes (systemInstruction p) ctx = false /\
  startsWith (userPrompt d) (contextPreamble ctx) = false.
Proof. vm_compute. repeat split; reflexivity. Qed.

(** C3 (amended): for every feature other than Design Schema and every
    schema context that is non-empty after trimming, the user prompt is the
    context block followed by the prompt built without context; the block is
    the text that forbids inventing tables, columns or data structures
    outside the context, around the raw context.  The system instruction
    gets no block: it is the one built without context and does not start
    with the block.  The Design Schema prompt gets no block. *)
Theorem context_block_prefixes_user_prompt_only
    (f : Feature) (db input ctx : str) :
  truthy (trim ctx) = true ->
  let p := getPrompts (feature_name f) db input ctx in
  let bare := getPrompts (feature_name f) db input [] in
  let block :=
    (lit "You MUST use the following provided context. Do not invent tables, columns, or data structures that are not in this context."
     ++ nl ++ nl ++ lit "CONTEXT:" ++ nl ++ lit "```" ++ nl)
    ++ ctx ++ (nl ++ lit "```" ++ nl ++ nl) in
  (f <> DesignSchema -> userPrompt p = block ++ userPrompt bare) /\
  (f = DesignSchema -> userPrompt p = userPrompt bare) /\
  systemInstruction p = systemInstruction bare /\
  startsWith (systemInstruction p) block = false.
Proof.
  intros H p bare block. subst p bare block.
  rewrite <- (contextPreamble_present ctx H). repeat split.
  - intros Hf. apply userPrompt_preamble. exact Hf.
  - intros ->. rewrite !userPrompt_design_schema. reflexivity.
  - apply systemInstruction_ignores_context.
  - apply systemInstruction_not_prefixed. exact H.
Qed.

Lemma context_block_prefixes_user_prompt_only_witness :
  let ctx := lit "users(id)" in
  let db := lit "MySQL" in
  let input := lit "SELECT 1" in
  truthy (trim ctx) = true /\
  userPrompt (getPrompts (feature_name ExplainSQL) db input ctx) =
    lit "You MUST use the following provided context. Do not invent tables, columns, or data structures that are not in this context."
    ++ nl ++ nl ++ lit "CONTEXT:" ++ nl ++ lit "```" ++ nl
    ++ lit "users(id)" ++ nl ++ lit "```" ++ nl ++ nl
    ++ lit "Please explain this MySQL SQL query step-by-step:"
    ++ nl ++ nl ++ lit "SELECT 1".
Proof.
  intros ctx db input.
  assert (truthy (trim ctx) = true) as H by (vm_compute; reflexivity).
  split; [exact H|].
  destruct (context_block_prefixes_user_prompt_only ExplainSQL db input ctx H)
    as [Hp _].
  rewrite Hp by discriminate. vm_compute. reflexivity.
Defined.

(** C4, as stated, fails: the Design Schema prompt built with the context
    [users(id)] does not contain it. *)
Lemma design_schema_prompt_omits_context :
  let ctx := lit "users(id)" in
  truthy (trim ctx) = true /\
  includes
    (userPrompt (getPrompts (feature_name DesignSchema) (lit "PostgreSQL")
                   (lit "a blog") ctx))
    ctx = false.
Proof. vm_compute. split; reflexivity. Qed.

(** C4 (amended): for every feature and user input, if the schema context
    is empty or whitespace-only the user prompt has no context block: it is
    exactly the feature's own text around the dialect and the input, and it
    does not start with the sentence that opens a block.  If the context is
    non-empty after trimming and the feature is not Design Schema, the user
    prompt is the block around the context followed by that text, so it
    contains the context text verbatim.  The Design Schema prompt is that
    text whatever the context. *)
Theorem user_prompt_context_block (f : Feature) (db input ctx : str) :
  let p := getPrompts (feature_name f) db input ctx in
  let own :=
    match f with
    | NLtoSQL =>
        lit "Convert the following request into a " ++ db
        ++ lit " SQL query: " ++ dq ++ input ++ dq
    | OptimizeQuery =>
        lit "Please analyze and suggest optimizations for this " ++ db
        ++ lit " SQL query, then return the results in the required JSON format:"
        ++ nl ++ nl ++ input
    | DesignSchema =>
        lit "Design a " ++ db
        ++ lit " schema for the following requirements: " ++ dq ++ input ++ dq
    | ExplainSQL =>
        lit "Please explain this " ++ db ++ lit " SQL query step-by-step:"
        ++ nl ++ nl ++ input
    | AnalyzeSuggest =>
        lit "Based on the provided context, please analyze and provide suggestions for the following request: "
        ++ dq ++ input ++ dq
    end in
  (forallb is_whitespace ctx = true ->
     userPrompt p = own /\
     startsWith (userPrompt p)
       (lit "You MUST use the following provided context.") = false) /\
  (trim ctx <> [] -> f <> DesignSchema ->
     includes (userPrompt p) ctx = true /\
     userPrompt p =
       (lit "You MUST use the following provided context. Do not invent tables, columns, or data structures that are not in this context."
        ++ nl ++ nl ++ lit "CONTEXT:" ++ nl ++ lit "```" ++ nl)
       ++ ctx ++ (nl ++ lit "```" ++ nl ++ nl) ++ own) /\
  (f = DesignSchema -> userPrompt p = own).
Proof.
  intros p own. subst p.
  assert (userPrompt (getPrompts (feature_name f) db input []) = own) as Hown
    by (subst own; destruct f; unfold feature_name; switch_on_feature).
  split; [|split].
  - intros Hblank.
    assert (contextPreamble ctx = []) as E
      by (apply contextPreamble_blank, truthy_false_iff, trim_nil_iff;
          exact Hblank).
    assert (userPrompt (getPrompts (feature_name f) db input ctx) = own) as Hp.
    { destruct (decide (f = DesignSchema)) as [->|Hf].
      - rewrite userPrompt_design_schema. reflexivity.
      - rewrite userPrompt_preamble by exact Hf. rewrite E. exact Hown. }
    split; [exact Hp|]. rewrite Hp. subst own.
    destruct f; vm_compute; reflexivity.
  - intros Hne Hf. rewrite userPrompt_preamble by exact Hf.
    rewrite contextPreamble_present
      by (destruct (trim ctx); [congruence | reflexivity]).
    rewrite Hown. split.
    + match goal with
      | |- includes ((?h ++ ctx ++ ?t) ++ ?b) ctx = true =>
          apply includes_spec; exists h, (t ++ b)
      end.
      rewrite <- !app_assoc. reflexivity.
    + rewrite <- !app_assoc. reflexivity.
  - intros ->. subst own. apply userPrompt_design_schema.
Qed.

Lemma user_prompt_context_block_witness :
  (forallb is_whitespace (lit "  ") = true /\
   userPrompt (getPrompts (feature_name NLtoSQL) (lit "SQLite")
                 (lit "count rows") (lit "  ")) =
   lit "Convert the following request into a SQLite SQL query: "
   ++ dq ++ lit "count rows" ++ dq) /\
  (trim (lit " t(a) ") <> [] /\
   includes
     (userPrompt (getPrompts (feature_name AnalyzeSuggest) (lit "Oracle")
                    (lit "indexes?") (lit " t(a) ")))
     (lit " t(a) ") = true).
Proof.
  split.
  - assert (forallb is_whitespace (lit "  ") = true) as H
      by (vm_compute; reflexivity).
    split; [exact H|].
    destruct (user_prompt_context_block NLtoSQL (lit "SQLite")
                (lit "count rows") (lit "  ")) as [Hblank _].
    destruct (Hblank H) as [-> _]. vm_compute. reflexivity.
  - assert (trim (lit " t(a) ") <> []) as H by (vm_compute; discriminate).
    split; [exact H|].
    destruct (user_prompt_context_block AnalyzeSuggest (lit "Oracle")
                (lit "indexes?") (lit " t(a) ")) as (_ & Hfull & _).
    apply Hfull; [exact H | discriminate].
Defined.

(** ** Facts about the session and the history *)

Lemma fold_append_chunk (cs : list (option str)) (s : Signals) :
  fold_left append_chunk cs s =
  set_output (output s ++ concat (map to_string cs)) s.
Proof.
  revert s. induction cs as [|c cs IH]; intros s; simpl.
  - rewrite app_nil_r. destruct s; reflexivity.
  - rewrite IH. unfold append_chunk, set_output; simpl.
    rewrite <- app_assoc. reflexivity.
Qed.

Lemma ignored_iff (s : Signals) :
  ignored s = true <-> loading s = true \/ trim (userInput s) = [].
Proof.
  unfold ignored. rewrite orb_true_iff, negb_true_iff, truthy_false_iff.
  tauto.
Qed.

(** The handler of [generate], on the message it is given. *)
Lemma displayMessage_cases (e : Thrown) :
  (includes (rawMessage e) (lit "token count exceeds") = true \/
   includes (rawMessage e) (lit "400") = true ->
   displayMessage e = context_too_large) /\
  (includes (rawMessage e) (lit "token count exceeds") = false ->
   includes (rawMessage e) (lit "400") = false ->
   displayMessage e = generic_prefix ++ rawMessage e).
Proof.
  unfold displayMessage. split.
  - intros [H|H]; rewrite H; [|rewrite orb_true_r]; reflexivity.
  - intros -> ->. reflexivity.
Qed.

(** The three messages the service can throw all take the generic branch. *)
Lemma displayMessage_of_service (m : str) :
  m = not_initialized \/ m = stream_failed \/ m = parse_failed ->
  displayMessage (Error m) = generic_prefix ++ m.
Proof. intros [->|[->| ->]]; vm_compute; reflexivity. Qed.

Lemma generateStream_thrown (ai : option GoogleGenAI)
    (feature db input ctx : str) (e : Thrown) :
  thrown (snd (generateStream ai feature db input ctx)) = Some e ->
  e = Error not_initialized \/ e = Error stream_failed.
Proof.
  unfold generateStream. destruct ai as [g|]; simpl.
  - destruct (failure _); intros [= <-]. right; reflexivity.
  - intros [= <-]. left; reflexivity.
Qed.

Lemma StronglySorted_rev_flip {A : Type} (R : A -> A -> Prop) (l : list A) :
  StronglySorted R l -> StronglySorted (fun x y => R y x) (rev l).
Proof.
  induction 1 as [|x l Hl IH Hx]; simpl; [constructor|].
  assert (forall l', StronglySorted (fun x y => R y x) l' ->
                     Forall (fun y => R x y) l' ->
                     StronglySorted (fun x y => R y x) (l' ++ [x])) as Happ.
  { induction l' as [|y l' IHl']; simpl; intros Hs Hf.
    - repeat constructor.
    - apply StronglySorted_inv in Hs as [Hs Hy].
      apply Forall_cons_iff in Hf as [Hxy Hf].
      constructor; [apply IHl'; assumption|].
      apply Forall_app. split; [exact Hy | repeat constructor; exact Hxy]. }
  apply Happ; [exact IH|]. apply Forall_rev. exact Hx.
Qed.

Section Session.

Variable JSON_stringify : list HistoryItem -> str.
Variable JSON_parse_history : str -> outcome (list HistoryItem).
Variable JSON_parse : str -> outcome JsonValue.

#[local] Abbreviation generate := (generate JSON_stringify JSON_parse).
#[local] Abbreviation succeeded := (succeeded JSON_stringify JSON_parse).
#[local] Abbreviation session := (session JSON_stringify JSON_parse).
#[local] Abbreviation all_succeeded :=
  (all_succeeded JSON_stringify JSON_parse).
#[local] Abbreviation loadHistoryFromStorage :=
  (loadHistoryFromStorage JSON_parse_history).
#[local] Abbreviation construct := (construct JSON_parse_history).

(** Saving never touches the signals. *)
Lemma signals_addToHistory (w : World) (item : HistoryItem) (a : App) :
  history (signals (addToHistory JSON_stringify w item a)) =
    {| item_id := now w; item_feature := item_feature item;
       item_db := item_db item; item_userInput := item_userInput item;
       item_schemaContext := item_schemaContext item;
       item_uploadedFileName := item_uploadedFileName item;
       item_output := item_output item;
       item_optimizationResult := item_optimizationResult item |}
    :: history (signals a) /\
  error (signals (addToHistory JSON_stringify w item a)) = error (signals a).
Proof.
  unfold addToHistory, saveHistoryToStorage.
  destruct (quotaExceeded w); split; reflexivity.
Qed.

(** C6: when the loading flag is set, or the user input is empty after
    trimming, [generate] changes nothing: signals, storage and the log of
    requests are the ones it was called with. *)
Theorem generate_ignored_is_noop (w : World) (a : App) :
  loading (signals a) = true \/ trim (userInput (signals a)) = [] ->
  generate w a = a.
Proof.
  intros H. apply ignored_iff in H. unfold AppComponent.generate.
  rewrite H. reflexivity.
Qed.

(** C9: when the transport fails during a streaming generation, the
    generator throws the stream-failed error, the error signal holds its
    wrapped message, and the output signal holds the concatenation of the
    fragments delivered before the failure (each as it was appended, a
    chunk without text as the text [undefined]); no entry is added. *)
Theorem stream_failure_keeps_partial_output
    (w : World) (a : App) (g : GoogleGenAI) (e : Thrown) :
  let s := signals a in
  let request :=
    streamRequest (feature_name (selectedFeature s)) (selectedDb s)
      (userInput s) (schemaContext s) in
  ignored s = false ->
  selectedFeature s <> OptimizeQuery ->
  ai w = Some g ->
  failure (generateContentStream g request) = Some e ->
  thrown (snd (generateStream (ai w) (feature_name (selectedFeature s))
                 (selectedDb s) (userInput s) (schemaContext s)))
    = Some (Error stream_failed) /\
  output (signals (generate w a))
    = concat (map to_string (chunks (generateContentStream g request))) /\
  error (signals (generate w a)) = Some (generic_prefix ++ stream_failed) /\
  history (signals (generate w a)) = history s /\
  loading (signals (generate w a)) = false.
Proof.
  intros s request Hig Hf Hai Hfail. unfold AppComponent.generate.
  fold s. rewrite Hig. unfold generateStream. rewrite Hai. fold request.
  destruct (selectedFeature s) eqn:Ef; try congruence;
    cbn; fold request; rewrite Hfail; cbn; rewrite fold_append_chunk; cbn;
    repeat split; reflexivity.
Qed.

(** C10: for a feature other than Optimize Query, a stream that ends
    after zero fragments still adds an entry, whose output is the empty
    string and whose optimizationResult is null. *)
Theorem empty_stream_still_appends_entry
    (w : World) (a : App) (g : GoogleGenAI) :
  let s := signals a in
  let request :=
    streamRequest (feature_name (selectedFeature s)) (selectedDb s)
      (userInput s) (schemaContext s) in
  ignored s = false ->
  selectedFeature s <> OptimizeQuery ->
  ai w = Some g ->
  generateContentStream g request = {| chunks := []; failure := None |} ->
  exists entry,
    history (signals (generate w a)) = entry :: history s /\
    item_output entry = [] /\
    item_optimizationResult entry = JNull /\
    item_feature entry = selectedFeature s /\
    error (signals (generate w a)) = None.
Proof.
  intros s request Hig Hf Hai Hresp. unfold AppComponent.generate.
  fold s. rewrite Hig. unfold generateStream. rewrite Hai. fold request.
  rewrite Hresp.
  destruct (selectedFeature s) eqn:Ef; try congruence;
    cbn; unfold addToHistory, saveHistoryToStorage;
    destruct (quotaExceeded w); cbn;
    eexists; repeat split; reflexivity.
Qed.

(** A failing structured call leaves the history alone and reports the
    parse-failed message, whatever went wrong. *)
Lemma structured_failure_keeps_history
    (w : World) (a : App) (e : Thrown) :
  let s := signals a in
  ignored s = false ->
  selectedFeature s = OptimizeQuery ->
  snd (generateStructured JSON_parse (ai w) (selectedDb s) (userInput s)
         (schemaContext s)) = Throw e ->
  history (signals (generate w a)) = history s /\
  localStorage (generate w a) = localStorage a /\
  error (signals (generate w a)) = Some (displayMessage e).
Proof.
  intros s Hig Hf Hthrow. unfold AppComponent.generate. fold s.
  rewrite Hig, Hf.
  destruct (generateStructured JSON_parse (ai w) (selectedDb s)
              (userInput s) (schemaContext s)) as [calls r].
  simpl in Hthrow. subst r. repeat split; reflexivity.
Qed.

(** C2: an empty (or missing) response text makes the body of
    [generateStructured] throw the empty-response error, but the [catch]
    around it replaces that error: the call fails with the parse-failed
    message, the same as for text that is not JSON. *)
Theorem empty_response_reported_as_parse_failure
    (g : GoogleGenAI) (db input ctx : str) (text : option str) :
  generateContent g (structuredRequest db input ctx) = Response text ->
  text = None \/ text = Some [] ->
  structuredBody JSON_parse (Response text) = Throw (Error empty_response) /\
  snd (generateStructured JSON_parse (Some g) db input ctx)
    = Throw (Error parse_failed) /\
  parse_failed <> empty_response.
Proof.
  intros Hresp Htext. unfold generateStructured. rewrite Hresp.
  split; [destruct Htext as [-> | ->]; reflexivity|].
  split; [destruct Htext as [-> | ->]; reflexivity|].
  intros E. vm_compute in E. discriminate E.
Qed.

(** Text that is not JSON is reported with the same message. *)
Lemma malformed_text_reported_as_parse_failure
    (g : GoogleGenAI) (db input ctx : str) (c : N) (text : str) (e : Thrown) :
  generateContent g (structuredRequest db input ctx)
    = Response (Some (c :: text)) ->
  JSON_parse (c :: text) = Throw e ->
  snd (generateStructured JSON_parse (Some g) db input ctx)
    = Throw (Error parse_failed).
Proof.
  intros Hresp Hparse. unfold generateStructured. rewrite Hresp.
  cbn. rewrite Hparse. reflexivity.
Qed.

(** Whatever the service throws is one of its three fixed messages. *)
Lemma generateStructured_thrown (ai : option GoogleGenAI)
    (db input ctx : str) (e : Thrown) :
  snd (generateStructured JSON_parse ai db input ctx) = Throw e ->
  e = Error not_initialized \/ e = Error parse_failed.
Proof.
  unfold generateStructured. destruct ai as [g|]; cbn.
  - destruct (structuredBody JSON_parse _); intros [= <-].
    right; reflexivity.
  - intros [= <-]. left; reflexivity.
Qed.

(** So no run of [generate] ever shows the context-too-large message. *)
Lemma context_too_large_is_never_shown (w : World) (a : App) :
  ignored (signals a) = false ->
  error (signals (generate w a)) <> Some context_too_large.
Proof.
  intros Hig. unfold AppComponent.generate. rewrite Hig.
  assert (forall m, m = not_initialized \/ m = stream_failed \/
                    m = parse_failed ->
          Some (displayMessage (Error m)) <> Some context_too_large) as Hm.
  { intros m [->|[->| ->]] E; vm_compute in E; discriminate E. }
  destruct (selectedFeature (signals a)).
  2:{ destruct (generateStructured JSON_parse (ai w) _ _ _) as [calls [r|e]]
        eqn:Hs.
      - cbn. rewrite (proj2 (signals_addToHistory _ _ _)). discriminate.
      - cbn. apply (f_equal snd) in Hs.
        destruct (generateStructured_thrown _ _ _ _ _ Hs) as [-> | ->];
          apply Hm; tauto. }
  all: match goal with
       | |- context [generateStream ?x ?f ?d ?i ?c] =>
           destruct (generateStream x f d i c) as [calls [ys [e|]]] eqn:Hs
       end; cbn;
       [ apply (f_equal (fun p => thrown (snd p))) in Hs;
         destruct (generateStream_thrown _ _ _ _ _ _ Hs) as [-> | ->];
         apply Hm; tauto
       | rewrite (proj2 (signals_addToHistory _ _ _)); cbn;
         rewrite fold_append_chunk; discriminate ].
Qed.

(** C7: a transport failure never reaches the handler of [generate] with
    its own message.  Even when that message contains "token count
    exceeds" or "400", so that the handler would answer with the
    context-too-large message, the error shown is the generic wrapping of
    the stream-failed message. *)
Theorem transport_failure_message_is_lost
    (w : World) (a : App) (g : GoogleGenAI) (e : Thrown) :
  let s := signals a in
  let request :=
    streamRequest (feature_name (selectedFeature s)) (selectedDb s)
      (userInput s) (schemaContext s) in
  ignored s = false ->
  selectedFeature s <> OptimizeQuery ->
  ai w = Some g ->
  failure (generateContentStream g request) = Some e ->
  includes (rawMessage e) (lit "token count exceeds") = true \/
  includes (rawMessage e) (lit "400") = true ->
  displayMessage e = context_too_large /\
  error (signals (generate w a)) = Some (generic_prefix ++ stream_failed) /\
  generic_prefix ++ stream_failed <> context_too_large.
Proof.
  intros s request Hig Hf Hai Hfail Hmsg. split; [|split].
  - apply displayMessage_cases. exact Hmsg.
  - unfold AppComponent.generate.
    fold s. rewrite Hig. unfold generateStream. rewrite Hai. fold request.
    destruct (selectedFeature s) eqn:Ef; try congruence;
      cbn; fold request; rewrite Hfail; reflexivity.
  - intros E. vm_compute in E. discriminate E.
Qed.

(** C8: after a confirmed [clearHistory] the history signal is empty and
    the storage slot is gone; loading from that storage changes nothing,
    and a component constructed over it starts with an empty history. *)
Theorem clear_history_then_load (a : App) :
  let a' := clearHistory true a in
  history (signals a') = [] /\
  localStorage a' !! storageKey = None /\
  loadHistoryFromStorage a' = a' /\
  history (signals (loadHistoryFromStorage a')) = [] /\
  history (signals (construct (localStorage a'))) = [].
Proof.
  intros a'.
  assert (localStorage a' !! storageKey = None) as Hslot
    by apply lookup_delete_eq.
  assert (loadHistoryFromStorage a' = a') as Hload
    by (unfold AppComponent.loadHistoryFromStorage; rewrite Hslot;
        reflexivity).
  split; [reflexivity|]. split; [exact Hslot|]. split; [exact Hload|].
  split.
  - rewrite Hload. reflexivity.
  - unfold AppComponent.construct, AppComponent.loadHistoryFromStorage.
    cbn [localStorage]. rewrite Hslot. reflexivity.
Qed.

(** What a successful run leaves at the head of the history. *)
Lemma succeeded_inv (w : World) (a : App) :
  let s := signals a in
  succeeded w a = true ->
  exists (g : GoogleGenAI) (out : str) (result : JsonValue),
    ai w = Some g /\
    history (signals (generate w a)) =
      {| item_id := now w; item_feature := selectedFeature s;
         item_db := selectedDb s; item_userInput := userInput s;
         item_schemaContext := schemaContext s;
         item_uploadedFileName := uploadedFileName s;
         item_output := out; item_optimizationResult := result |}
      :: history s /\
    ((selectedFeature s = OptimizeQuery /\ out = [] /\
      exists text,
        generateContent g
          (structuredRequest (selectedDb s) (userInput s) (schemaContext s))
          = Response (Some text) /\
        text <> [] /\ JSON_parse text = Return result)
     \/
     (selectedFeature s <> OptimizeQuery /\ result = JNull /\
      let response :=
        generateContentStream g
          (streamRequest (feature_name (selectedFeature s)) (selectedDb s)
             (userInput s) (schemaContext s)) in
      failure response = None /\
      out = concat (map to_string (chunks response)))).
Proof.
  intros s. unfold AppComponent.succeeded. fold s.
  intros H. apply andb_true_iff in H as [Hig H].
  apply negb_true_iff in Hig. revert H.
  unfold AppComponent.generate. fold s. rewrite Hig.
  destruct (ai w) as [g|] eqn:Hai.
  2:{ destruct (selectedFeature s); cbn; discriminate. }
  intros H. exists g.
  destruct (selectedFeature s) eqn:Ef.
  2:{ revert H. unfold generateStructured, structuredBody.
      destruct (generateContent g _) as [e|[[|c text]|]] eqn:Hresp;
        cbn; try discriminate.
      destruct (JSON_parse (c :: text)) as [result|e] eqn:Hparse;
        cbn; try discriminate.
      intros _. exists [], result. split; [reflexivity|].
      split; [apply signals_addToHistory|].
      left. repeat split. exists (c :: text).
      split; [reflexivity|]. split; [discriminate | exact Hparse]. }
  all: revert H; unfold generateStream;
    match goal with
    | |- context [generateContentStream ?c ?r] =>
        destruct (failure (generateContentStream c r)) eqn:Hfail
    end; cbn; try discriminate; intros _;
    rewrite fold_append_chunk;
    exists (concat (map to_string (chunks (generateContentStream g
              (streamRequest (feature_name (selectedFeature s))
                 (selectedDb s) (userInput s) (schemaContext s)))))), JNull;
    rewrite Ef; (split; [reflexivity|]);
    (split; [rewrite (proj1 (signals_addToHistory _ _ _)); reflexivity|]);
    right; (split; [discriminate|]); (split; [reflexivity|]);
    (split; reflexivity).
Qed.

(** C1 (amended): the entry added by a successful generation carries the
    selected feature.  For Optimize Query its output is empty and its
    optimizationResult is the value parsed from the non-empty response
    text; for every other feature its optimizationResult is null and its
    output is the concatenation, in order, of what was appended for each
    chunk of the stream: the text of the chunk, or the text [undefined]
    for a chunk without text. *)
Theorem history_entry_result_fields (w : World) (a : App) :
  let s := signals a in
  succeeded w a = true ->
  exists entry,
    history (signals (generate w a)) = entry :: history s /\
    item_feature entry = selectedFeature s /\
    (selectedFeature s = OptimizeQuery ->
       item_output entry = [] /\
       exists g text,
         ai w = Some g /\
         generateContent g
           (structuredRequest (selectedDb s) (userInput s)
              (schemaContext s)) = Response (Some text) /\
         text <> [] /\
         JSON_parse text = Return (item_optimizationResult entry)) /\
    (selectedFeature s <> OptimizeQuery ->
       item_optimizationResult entry = JNull /\
       exists g,
         ai w = Some g /\
         item_output entry =
           concat (map to_string (chunks (generateContentStream g
             (streamRequest (feature_name (selectedFeature s))
                (selectedDb s) (userInput s) (schemaContext s)))))).
Proof.
  intros s H.
  destruct (succeeded_inv w a H) as (g & out & result & Hai & Hh & Hcase).
  fold s in Hh, Hcase. eexists. split; [exact Hh|].
  split; [reflexivity|]. cbn. split.
  - intros Hf. destruct Hcase as [(_ & -> & text & Hr & Hne & Hp)|(Hn & _)];
      [|congruence].
    split; [reflexivity|]. exists g, text.
    split; [exact Hai|]. split; [exact Hr|]. split; [exact Hne | exact Hp].
  - intros Hf. destruct Hcase as [(Hn & _)|(_ & -> & _ & Hout)];
      [congruence|].
    split; [reflexivity|]. exists g. split; [exact Hai | exact Hout].
Qed.

(** Ids and inputs of the history after a session of successful rounds:
    the rounds in reverse, in front of what was there. *)
Lemma session_history (rounds : list (Form * World)) :
  forall a : App,
  all_succeeded rounds a = true ->
  map (fun e => (item_id e, item_userInput e))
      (history (signals (session rounds a))) =
  rev (map (fun r => (now (snd r), form_userInput (fst r))) rounds)
  ++ map (fun e => (item_id e, item_userInput e)) (history (signals a)).
Proof.
  induction rounds as [|r rounds IH]; intros a H; [reflexivity|].
  cbn [AppComponent.all_succeeded] in H.
  apply andb_true_iff in H as [Hr Hrest].
  unfold AppComponent.session. cbn [fold_left].
  fold (session rounds (round JSON_stringify JSON_parse a r)).
  rewrite (IH _ Hrest). unfold AppComponent.round_succeeded in Hr.
  destruct (succeeded_inv _ _ Hr) as (g & out & result & _ & Hh & _).
  unfold AppComponent.round. rewrite Hh. cbn. rewrite <- app_assoc.
  reflexivity.
Qed.

(** C5 (amended): starting from an empty history, after N successful
    generations the history has length N and is ordered newest-first:
    its ids are the clock readings of the generations in reverse order
    (and its inputs the inputs of the generations in reverse order).
    When the clock readings strictly increase from one generation to the
    next, each entry's id is strictly greater than the ids of all entries
    created before it. *)
Theorem history_after_successful_rounds
    (rounds : list (Form * World)) (a : App) :
  history (signals a) = [] ->
  all_succeeded rounds a = true ->
  let h := history (signals (session rounds a)) in
  length h = length rounds /\
  map item_id h = rev (map (fun r => now (snd r)) rounds) /\
  map item_userInput h = rev (map (fun r => form_userInput (fst r)) rounds) /\
  (StronglySorted Z.lt (map (fun r => now (snd r)) rounds) ->
   StronglySorted (fun newer older => (older < newer)%Z) (map item_id h)).
Proof.
  intros Hempty Hok h. pose proof (session_history rounds a Hok) as H.
  fold h in H. rewrite Hempty, app_nil_r in H.
  assert (map item_id h = rev (map (fun r => now (snd r)) rounds)) as Hid.
  { apply (f_equal (map fst)) in H.
    rewrite map_map, <- map_rev, map_map, map_rev in H. exact H. }
  repeat split.
  - apply (f_equal (@length _)) in Hid.
    rewrite length_rev, !length_map in Hid. exact Hid.
  - exact Hid.
  - apply (f_equal (map snd)) in H.
    rewrite map_map, <- map_rev, map_map, map_rev in H. exact H.
  - intros Hclock. rewrite Hid. apply StronglySorted_rev_flip. exact Hclock.
Qed.

End Session.

(** ** Examples *)

(** C1, as stated, fails: a stream that ends without a fragment gives a
    successful NL-to-SQL generation whose entry has an empty output and no
    optimizationResult; and an Optimize Query response whose text is [null]
    gives an entry with neither field populated. *)
Lemma successful_entry_with_no_result :
  let a := Samples.ready NLtoSQL "list the users" "" in
  let w := Samples.world (Samples.ends []) Samples.unused 1000 in
  let a' := Samples.ready OptimizeQuery "SELECT 1" "" in
  let w' := Samples.world (Samples.ends [])
              (Response (Some (lit "null"))) 1000 in
  let fields (e : HistoryItem) :=
    (item_feature e, item_output e, item_optimizationResult e) in
  succeeded Samples.stringify Samples.parse w a = true /\
  map fields (history (signals (generate Samples.stringify Samples.parse w a)))
    = [(NLtoSQL, [], JNull)] /\
  succeeded Samples.stringify Samples.parse w' a' = true /\
  map fields
    (history (signals (generate Samples.stringify Samples.parse w' a')))
    = [(OptimizeQuery, [], JNull)].
Proof. vm_compute. repeat split; reflexivity. Qed.

Lemma history_entry_result_fields_witness :
  let a := Samples.ready ExplainSQL "SELECT 1" "" in
  let w := Samples.world (Samples.ends [lit "It "; lit "selects 1."])
             Samples.unused 1000 in
  succeeded Samples.stringify Samples.parse w a = true /\
  exists entry,
    history (signals (generate Samples.stringify Samples.parse w a))
      = [entry] /\
    item_feature entry = ExplainSQL /\
    item_optimizationResult entry = JNull /\
    item_output entry = lit "It selects 1.".
Proof.
  intros a w.
  assert (succeeded Samples.stringify Samples.parse w a = true) as H
    by (vm_compute; reflexivity).
  split; [exact H|].
  destruct (history_entry_result_fields Samples.stringify Samples.parse w a H)
    as (entry & Hh & Hf & _ & Hs).
  exists entry. split; [exact Hh|]. split; [exact Hf|].
  destruct Hs as (Hnull & g & Hg & Hout); [discriminate|].
  split; [exact Hnull|]. rewrite Hout.
  injection Hg as <-. vm_compute. reflexivity.
Defined.

Lemma empty_response_reported_as_parse_failure_witness :
  let g := Samples.client (Samples.ends []) (Response (Some [])) in
  snd (generateStructured Samples.parse (Some g) (lit "PostgreSQL")
         (lit "SELECT 1") [])
    = Throw (Error (lit "Failed to parse structured response from AI.")).
Proof.
  intros g.
  destruct (empty_response_reported_as_parse_failure Samples.parse g
              (lit "PostgreSQL") (lit "SELECT 1") [] (Some []))
    as (_ & H & _); [reflexivity | right; reflexivity | exact H].
Defined.

(** C5, as stated, fails: two successful generations that read the same
    clock value get the same id. *)
Lemma equal_clock_readings_give_equal_ids :
  let rounds :=
    [ (Samples.form NLtoSQL "list the users" "",
       Samples.world (Samples.ends [lit "SELECT * FROM users;"])
         Samples.unused 1000%Z);
      (Samples.form ExplainSQL "SELECT 1" "",
       Samples.world (Samples.ends [lit "It selects 1."])
         Samples.unused 1000%Z) ] in
  history (signals Samples.fresh) = [] /\
  all_succeeded Samples.stringify Samples.parse rounds Samples.fresh = true /\
  map item_id
    (history (signals
       (session Samples.stringify Samples.parse rounds Samples.fresh)))
    = [1000%Z; 1000%Z].
Proof. vm_compute. repeat split; reflexivity. Qed.

Lemma history_after_successful_rounds_witness :
  let rounds :=
    [ (Samples.form NLtoSQL "list the users" "",
       Samples.world (Samples.ends [lit "SELECT * FROM users;"])
         Samples.unused 1000%Z);
      (Samples.form OptimizeQuery "SELECT 1" "",
       Samples.world (Samples.ends []) (Response (Some (lit "{}")))
         2000%Z) ] in
  let h :=
    history (signals
      (session Samples.stringify Samples.parse rounds Samples.fresh)) in
  length h = 2%nat /\
  map item_id h = [2000%Z; 1000%Z] /\
  StronglySorted (fun newer older => (older < newer)%Z) (map item_id h).
Proof.
  intros rounds h.
  destruct (history_after_successful_rounds Samples.stringify Samples.parse
              rounds Samples.fresh)
    as (Hlen & Hid & _ & Hsorted);
    [reflexivity | vm_compute; reflexivity |].
  split; [exact Hlen|]. split; [exact Hid|].
  apply Hsorted. repeat constructor.
Defined.

Lemma generate_ignored_is_noop_witness :
  let w := Samples.world (Samples.ends [lit "SELECT 1"]) Samples.unused 1000 in
  let busy :=
    on_signals (set_loading true) (Samples.ready NLtoSQL "list the users" "") in
  let blank := Samples.ready NLtoSQL "   " "" in
  generate Samples.stringify Samples.parse w busy = busy /\
  generate Samples.stringify Samples.parse w blank = blank.
Proof.
  intros w busy blank. split.
  - apply generate_ignored_is_noop. left. reflexivity.
  - apply generate_ignored_is_noop. right. vm_compute. reflexivity.
Defined.

Lemma transport_failure_message_is_lost_witness :
  let original := "400 Bad Request: input token count exceeds the limit"%string in
  let w := Samples.world (Samples.breaks [] original) Samples.unused 1000 in
  let a := Samples.ready NLtoSQL "list the users" "users(id)" in
  displayMessage (Error (lit original)) = context_too_large /\
  error (signals (generate Samples.stringify Samples.parse w a)) =
    Some (lit "An error occurred while communicating with the AI: Failed to generate streaming response from AI.").
Proof.
  intros original w a.
  destruct (transport_failure_message_is_lost Samples.stringify Samples.parse
              w a (Samples.client (Samples.breaks [] original) Samples.unused)
              (Error (lit original)))
    as (Hd & He & _).
  - vm_compute. reflexivity.
  - discriminate.
  - reflexivity.
  - reflexivity.
  - left. vm_compute. reflexivity.
  - split; [exact Hd|]. rewrite He. vm_compute. reflexivity.
Defined.

Lemma stream_failure_keeps_partial_output_witness :
  let w := Samples.world
             (Samples.breaks [lit "SELECT"; lit " * FROM"] "socket closed")
             Samples.unused 1000 in
  let a := Samples.ready NLtoSQL "list the users" "" in
  let a' := generate Samples.stringify Samples.parse w a in
  output (signals a') = lit "SELECT * FROM" /\
  error (signals a') = Some (generic_prefix ++ stream_failed) /\
  history (signals a') = [].
Proof.
  intros w a a'.
  destruct (stream_failure_keeps_partial_output Samples.stringify Samples.parse
              w a
              (Samples.client
                 (Samples.breaks [lit "SELECT"; lit " * FROM"] "socket closed")
                 Samples.unused)
              (Error (lit "socket closed")))
    as (_ & Hout & Herr & Hh & _).
  - vm_compute. reflexivity.
  - discriminate.
  - reflexivity.
  - reflexivity.
  - split; [|split; [exact Herr | exact Hh]].
    subst a'. rewrite Hout. vm_compute. reflexivity.
Defined.

Lemma empty_stream_still_appends_entry_witness :
  let w := Samples.world (Samples.ends []) Samples.unused 1000 in
  let a := Samples.ready DesignSchema "a blog" "" in
  exists entry,
    history (signals (generate Samples.stringify Samples.parse w a))
      = [entry] /\
    item_output entry = [] /\
    item_optimizationResult entry = JNull.
Proof.
  intros w a.
  destruct (empty_stream_still_appends_entry Samples.stringify Samples.parse
              w a (Samples.client (Samples.ends []) Samples.unused))
    as (entry & Hh & Hout & Hres & _).
  - vm_compute. reflexivity.
  - discriminate.
  - reflexivity.
  - reflexivity.
  - exists entry. split; [exact Hh|]. split; [exact Hout | exact Hres].
Defined.

(** ** Further facts about the prompt builder *)

Lemma includes_head (pat rest : str) : includes (pat ++ rest) pat = true.
Proof. apply includes_spec. exists [], rest. reflexivity. Qed.

Lemma includes_self (pat : str) : includes pat pat = true.
Proof. apply includes_spec. exists [], []. rewrite app_nil_r. reflexivity. Qed.

Lemma includes_app_r (s t pat : str) :
  includes t pat = true -> includes (s ++ t) pat = true.
Proof.
  intros H. apply includes_spec in H as (before & after & ->).
  apply includes_spec. exists (s ++ before), after.
  rewrite <- app_assoc. reflexivity.
Qed.

Ltac find_segment :=
  first [ apply includes_self
        | apply includes_head
        | apply includes_app_r; find_segment ].

(** X1: A feature string outside the five names gets the generic pair: the
    instruction of a helpful assistant and the raw input as prompt, without
    dialect, context or schema. *)
Theorem unknown_feature_falls_back (feature db input ctx : str) :
  (forall f : Feature, feature <> feature_name f) ->
  getPrompts feature db input ctx =
    {| systemInstruction := lit "You are a helpful assistant.";
       userPrompt := input;
       schema := None |}.
Proof.
  intros H. unfold getPrompts.
  rewrite (decide_False (P := feature = lit "NL-to-SQL")) by apply (H NLtoSQL).
  rewrite (decide_False (P := feature = lit "Optimize Query"))
    by apply (H OptimizeQuery).
  rewrite (decide_False (P := feature = lit "Design Schema"))
    by apply (H DesignSchema).
  rewrite (decide_False (P := feature = lit "Explain SQL"))
    by apply (H ExplainSQL).
  rewrite (decide_False (P := feature = lit "Analyze & Suggest"))
    by apply (H AnalyzeSuggest).
  reflexivity.
Qed.

Lemma unknown_feature_falls_back_witness :
  getPrompts (lit "Summarize") (lit "MySQL") (lit "hello") (lit "t(a)") =
    {| systemInstruction := lit "You are a helpful assistant.";
       userPrompt := lit "hello";
       schema := None |}.
Proof.
  apply unknown_feature_falls_back.
  intros f E. destruct f; vm_compute in E; discriminate E.
Defined.

(** X2: Each of the five features reaches a branch of its own in both
    switches: its placeholder is an example, its instruction is one of the
    world-class ones and names the dialect, and the response schema is
    present exactly for Optimize Query. *)
Theorem every_feature_has_its_branch (f : Feature) (db input ctx : str) :
  let p := getPrompts (feature_name f) db input ctx in
  startsWith (placeholder_of (feature_name f)) (lit "e.g., ") = true /\
  startsWith (systemInstruction p) (lit "You are a world-class ") = true /\
  includes (systemInstruction p) db = true /\
  schema p = (if decide (f = OptimizeQuery) then Some optimizeSchema else None).
Proof.
  intros p. subst p. split; [destruct f; vm_compute; reflexivity|].
  destruct f; unfold feature_name; switch_on_feature; cbn [systemInstruction schema];
    (split; [vm_compute; reflexivity|]); (split; [find_segment | reflexivity]).
Qed.

Lemma userPrompt_includes_input (feature db input ctx : str) :
  includes (userPrompt (getPrompts feature db input ctx)) input = true.
Proof.
  unfold getPrompts. repeat case_decide; cbn [userPrompt]; find_segment.
Qed.

(** X3: Whatever the feature string, the user input is part of the user prompt
    as it was typed.  The dialect is part of the user prompt for every
    feature but Analyze & Suggest, whose prompt names it in the instruction
    only. *)
Theorem prompt_embeds_input_and_dialect (feature db input ctx : str) :
  includes (userPrompt (getPrompts feature db input ctx)) input = true /\
  (forall f : Feature,
     feature = feature_name f -> f <> AnalyzeSuggest ->
     includes (userPrompt (getPrompts feature db input ctx)) db = true) /\
  (feature = feature_name AnalyzeSuggest ->
     userPrompt (getPrompts feature db input ctx) =
     userPrompt (getPrompts feature [] input ctx)).
Proof.
  split; [|split].
  - apply userPrompt_includes_input.
  - intros f -> Hf.
    destruct f; try congruence; unfold feature_name; switch_on_feature;
      cbn [userPrompt]; find_segment.
  - intros ->. unfold feature_name. switch_on_feature.
Qed.

Lemma prompt_embeds_input_and_dialect_witness :
  includes
    (userPrompt (getPrompts (feature_name DesignSchema) (lit "SQLite")
                   (lit "a blog") []))
    (lit "SQLite") = true.
Proof.
  destruct (prompt_embeds_input_and_dialect (feature_name DesignSchema)
              (lit "SQLite") (lit "a blog") []) as (_ & H & _).
  apply (H DesignSchema); [reflexivity | discriminate].
Defined.

(** ** Facts about the service constructor and the second copy *)

Lemma legacy_userPrompt (feature db input ctx : str) :
  userPrompt (LegacyService.getPrompts feature db input ctx) =
  userPrompt (getPrompts feature db input ctx).
Proof.
  unfold LegacyService.getPrompts, getPrompts, contextPreamble.
  repeat case_decide; reflexivity.
Qed.

Lemma legacy_systemInstruction (feature db input ctx : str) :
  feature <> lit "Analyze & Suggest" ->
  systemInstruction (LegacyService.getPrompts feature db input ctx) =
  systemInstruction (getPrompts feature db input ctx).
Proof.
  intros H. unfold LegacyService.getPrompts, getPrompts.
  repeat case_decide; try reflexivity; congruence.
Qed.

(** X4: The constructor leaves the service initialised exactly when it holds a
    client, and exactly when it holds no error; a missing or empty key
    leaves it without a client, with the key-not-set message. *)
Theorem constructor_initialized_iff
    (newGoogleGenAI : str -> outcome GoogleGenAI) (API_KEY : option str) :
  let svc := constructor newGoogleGenAI API_KEY in
  (service_isInitialized svc = true <-> service_ai svc <> None) /\
  (service_isInitialized svc = true <-> service_error svc = None) /\
  (API_KEY = None \/ API_KEY = Some [] ->
   service_ai svc = None /\ service_error svc = Some api_key_not_set).
Proof.
  intros svc. subst svc. unfold constructor.
  destruct (constructorBody newGoogleGenAI API_KEY) as [client|e] eqn:Hb;
    cbn; (split; [split; congruence|]); (split; [split; congruence|]);
    intros [-> | ->]; cbn in Hb; try discriminate Hb;
    injection Hb as <-; split; reflexivity.
Qed.

Lemma constructor_initialized_iff_witness :
  let svc := constructor
               (Samples.connect (Samples.ends []) Samples.unused) (Some []) in
  service_ai svc = None /\ service_error svc = Some api_key_not_set /\
  service_isInitialized svc = false.
Proof.
  intros svc.
  destruct (constructor_initialized_iff
              (Samples.connect (Samples.ends []) Samples.unused) (Some []))
    as (_ & _ & H).
  destruct H as [Hai Herr]; [right; reflexivity|].
  split; [exact Hai|]. split; [exact Herr | reflexivity].
Defined.

(** X5: The two copies of the service build the same user prompt for every
    input, and the same instruction except for Analyze & Suggest; the two
    constructors accept the same keys; and away from Analyze & Suggest the
    streaming call of the second copy does what the first does once
    initialised. *)
Theorem legacy_service_agrees
    (newGoogleGenAI : str -> outcome GoogleGenAI) (API_KEY : option str)
    (g : GoogleGenAI) (feature db input ctx : str) :
  userPrompt (LegacyService.getPrompts feature db input ctx) =
    userPrompt (getPrompts feature db input ctx) /\
  service_ai (constructor newGoogleGenAI API_KEY) =
    match LegacyService.constructor newGoogleGenAI API_KEY with
    | Return client => Some client
    | Throw _ => None
    end /\
  (feature <> lit "Analyze & Suggest" ->
   systemInstruction (LegacyService.getPrompts feature db input ctx) =
     systemInstruction (getPrompts feature db input ctx) /\
   LegacyService.generateStream g feature db input ctx =
     generateStream (Some g) feature db input ctx).
Proof.
  split; [apply legacy_userPrompt|]. split.
  - unfold constructor, constructorBody, LegacyService.constructor.
    destruct API_KEY as [[|c k]|]; try reflexivity.
    destruct (newGoogleGenAI (c :: k)); reflexivity.
  - intros H. split; [apply legacy_systemInstruction; exact H|].
    unfold LegacyService.generateStream, generateStream, streamRequest.
    cbn zeta. rewrite legacy_userPrompt, legacy_systemInstruction by exact H.
    reflexivity.
Qed.

Lemma legacy_service_agrees_witness :
  let g := Samples.client (Samples.ends [lit "SELECT 1"]) Samples.unused in
  LegacyService.generateStream g (lit "NL-to-SQL") (lit "MySQL")
    (lit "one") [] =
  generateStream (Some g) (lit "NL-to-SQL") (lit "MySQL") (lit "one") [].
Proof.
  intros g.
  destruct (legacy_service_agrees
              (Samples.connect (Samples.ends []) Samples.unused) None g
              (lit "NL-to-SQL") (lit "MySQL") (lit "one") [])
    as (_ & _ & H).
  apply H. intros E. vm_compute in E. discriminate E.
Defined.

(** X6: Each method of the second copy issues exactly one request, and the
    only errors it throws are the stream-failed and the parse-failed
    message: the empty-response message never leaves it either. *)
Theorem legacy_failures_are_fixed_messages
    (JSON_parse : str -> outcome JsonValue) (g : GoogleGenAI)
    (feature db input ctx : str) :
  let streamed := LegacyService.generateStream g feature db input ctx in
  let structured := LegacyService.generateStructured JSON_parse g db input ctx in
  length (fst streamed) = 1%nat /\ length (fst structured) = 1%nat /\
  (forall e, thrown (snd streamed) = Some e -> e = Error stream_failed) /\
  (forall e, snd structured = Throw e -> e = Error parse_failed).
Proof.
  cbn zeta. split; [reflexivity|]. split; [reflexivity|]. split.
  - intros e. unfold LegacyService.generateStream. cbn.
    destruct (failure _); intros [= <-]. reflexivity.
  - intros e. unfold LegacyService.generateStructured. cbn.
    destruct (generateContent g _) as [e'|[[|c text]|]]; cbn;
      try (intros [= <-]; reflexivity).
    destruct (JSON_parse (c :: text)); intros [= <-]. reflexivity.
Qed.

(** ** Further facts about the session *)

Lemma ignored_false_loading (s : Signals) :
  ignored s = false -> loading s = false.
Proof. unfold ignored. intros H. apply orb_false_iff in H. tauto. Qed.

Ltac split_step :=
  first
    [ rewrite fold_append_chunk
    | match goal with
      | |- context [match ?x with _ => _ end] =>
          lazymatch x with
          | context [match _ with _ => _ end] => fail
          | _ => destruct x eqn:?
          end
      end ].

Ltac split_generate :=
  unfold AppComponent.generate, generateStream, generateStructured,
    structuredBody, addToHistory, saveHistoryToStorage;
  repeat (cbn; split_step); cbn.

Section MoreSession.

Variable JSON_stringify : list HistoryItem -> str.
Variable JSON_parse_history : str -> outcome (list HistoryItem).
Variable JSON_parse : str -> outcome JsonValue.

#[local] Abbreviation generate := (generate JSON_stringify JSON_parse).
#[local] Abbreviation succeeded := (succeeded JSON_stringify JSON_parse).
#[local] Abbreviation round := (round JSON_stringify JSON_parse).
#[local] Abbreviation session := (session JSON_stringify JSON_parse).
#[local] Abbreviation successes := (successes JSON_stringify JSON_parse).
#[local] Abbreviation construct := (construct JSON_parse_history).

(** X7: With a service that failed to initialise, a generation issues no
    request: it shows the not-initialised message, leaves output and result
    cleared, and touches neither the history nor the storage. *)
Theorem uninitialized_service_fails_without_request (w : World) (a : App) :
  ignored (signals a) = false ->
  ai w = None ->
  sent (generate w a) = sent a /\
  error (signals (generate w a)) = Some (generic_prefix ++ not_initialized) /\
  output (signals (generate w a)) = [] /\
  optimizationResult (signals (generate w a)) = JNull /\
  history (signals (generate w a)) = history (signals a) /\
  localStorage (generate w a) = localStorage a.
Proof.
  intros Hig Hai. unfold AppComponent.generate, generateStream,
    generateStructured. rewrite Hig, Hai.
  destruct (selectedFeature (signals a)); cbn; rewrite app_nil_r;
    repeat split; reflexivity.
Qed.

(** X8: [generate] never changes the form, the copied flag or the visibility of
    the context, and it leaves the loading flag as it found it: a run that
    starts always releases the flag again. *)
Theorem generate_keeps_form_and_loading (w : World) (a : App) :
  let s := signals a in
  let s' := signals (generate w a) in
  selectedFeature s' = selectedFeature s /\
  selectedDb s' = selectedDb s /\
  schemaContext s' = schemaContext s /\
  uploadedFileName s' = uploadedFileName s /\
  userInput s' = userInput s /\
  copied s' = copied s /\
  isContextVisible s' = isContextVisible s /\
  loading s' = loading s.
Proof.
  cbn zeta.
  destruct (ignored (signals a)) eqn:Hig.
  - unfold AppComponent.generate. rewrite Hig. repeat split; reflexivity.
  - rewrite (ignored_false_loading _ Hig).
    unfold AppComponent.generate. rewrite Hig.
    unfold generateStream, generateStructured, structuredBody, addToHistory,
      saveHistoryToStorage.
    repeat (cbn; split_step); cbn; repeat split; congruence.
Qed.

(** A run that did not succeed leaves the history and the storage alone. *)
Lemma not_succeeded_keeps (w : World) (a : App) :
  succeeded w a = false ->
  history (signals (generate w a)) = history (signals a) /\
  localStorage (generate w a) = localStorage a.
Proof.
  unfold AppComponent.succeeded.
  destruct (ignored (signals a)) eqn:Hig.
  - intros _. unfold AppComponent.generate. rewrite Hig. split; reflexivity.
  - cbn [negb andb]. unfold AppComponent.generate. rewrite Hig.
    unfold generateStream, generateStructured, structuredBody, addToHistory,
      saveHistoryToStorage.
    repeat (cbn; split_step); cbn; try discriminate; intros _;
      split; reflexivity.
Qed.

(** What a successful run stores. *)
Lemma succeeded_storage (w : World) (a : App) :
  succeeded w a = true ->
  localStorage (generate w a) =
    if quotaExceeded w then localStorage a
    else <[storageKey := JSON_stringify (history (signals (generate w a)))]>
           (localStorage a).
Proof.
  unfold AppComponent.succeeded.
  destruct (ignored (signals a)) eqn:Hig; [discriminate|].
  cbn [negb andb]. unfold AppComponent.generate. rewrite Hig.
  unfold generateStream, generateStructured, structuredBody, addToHistory,
    saveHistoryToStorage.
  destruct (quotaExceeded w);
    repeat (cbn; split_step); cbn; try discriminate; intros _; reflexivity.
Qed.


(** X10: After a non-ignored generation the two result signals are never both
    populated: Optimize Query leaves the output empty, every other feature
    leaves the optimizationResult null, whatever was shown before. *)
Theorem result_signals_exclusive (w : World) (a : App) :
  ignored (signals a) = false ->
  (selectedFeature (signals a) = OptimizeQuery ->
   output (signals (generate w a)) = []) /\
  (selectedFeature (signals a) <> OptimizeQuery ->
   optimizationResult (signals (generate w a)) = JNull).
Proof.
  intros Hig. unfold AppComponent.generate. rewrite Hig.
  unfold generateStream, generateStructured, structuredBody, addToHistory,
    saveHistoryToStorage.
  split; intros Hf; repeat (cbn; split_step); cbn; congruence.
Qed.


(** X12: After a streaming generation the output signal is the
    concatenation, in delivery order, of what was appended for each chunk:
    the text of the chunk, or the text [undefined] for a chunk without
    text; this holds whether the stream ended or broke, and whatever the
    output was before. *)
Theorem streamed_output_is_concatenation
    (w : World) (a : App) (g : GoogleGenAI) :
  let s := signals a in
  ignored s = false ->
  selectedFeature s <> OptimizeQuery ->
  ai w = Some g ->
  output (signals (generate w a)) =
    concat (map to_string (chunks (generateContentStream g
      (streamRequest (feature_name (selectedFeature s)) (selectedDb s)
         (userInput s) (schemaContext s))))).
Proof.
  intros s Hig Hf Hai. subst s. unfold AppComponent.generate.
  rewrite Hig. unfold generateStream. rewrite Hai.
  unfold addToHistory, saveHistoryToStorage.
  destruct (selectedFeature (signals a)) eqn:Ef; try congruence;
    repeat (cbn; split_step); cbn; reflexivity.
Qed.

(** X13: A non-ignored generation with an initialised service issues exactly
    one request: a content call for Optimize Query, which asks for JSON
    under the Optimize schema, and otherwise a stream call, which carries
    no schema; either carries the user input in its contents. *)
Theorem generate_issues_one_request (w : World) (a : App) (g : GoogleGenAI) :
  let s := signals a in
  ignored s = false ->
  ai w = Some g ->
  exists p,
    sent (generate w a) =
      sent a ++ [if decide (selectedFeature s = OptimizeQuery)
                 then ContentCall p else StreamCall p] /\
    model p = lit "gemini-2.5-flash" /\
    includes (contents p) (userInput s) = true /\
    config_responseSchema p =
      (if decide (selectedFeature s = OptimizeQuery)
       then Some optimizeSchema else None) /\
    config_responseMimeType p =
      (if decide (selectedFeature s = OptimizeQuery)
       then Some (lit "application/json") else None).
Proof.
  intros s Hig Hai. subst s. unfold AppComponent.generate.
  rewrite Hig. unfold generateStream, generateStructured. rewrite Hai.
  unfold addToHistory, saveHistoryToStorage.
  destruct (selectedFeature (signals a)) eqn:Ef;
    match goal with
    | |- context [StreamCall ?r] => exists r
    | |- context [ContentCall ?r] => exists r
    end;
    (split; [repeat (cbn; split_step); cbn; first [reflexivity | congruence]|]);
    (split; [reflexivity|]);
    (split; [apply userPrompt_includes_input|]);
    split; reflexivity.
Qed.

(** One round adds one entry in front when it succeeds, none otherwise. *)
Lemma round_history (a : App) (r : Form * World) :
  exists new,
    history (signals (round a r)) = new ++ history (signals a) /\
    length new =
      (if round_succeeded JSON_stringify JSON_parse a r then 1 else 0)%nat.
Proof.
  unfold AppComponent.round, AppComponent.round_succeeded.
  destruct (succeeded (snd r) (on_signals (fill (fst r)) a)) eqn:Hs.
  - destruct (succeeded_inv _ _ _ _ Hs) as (g & out & res & _ & Hh & _).
    eexists [_]. split; [exact Hh | reflexivity].
  - destruct (not_succeeded_keeps _ _ Hs) as [Hh _].
    exists []. split; [exact Hh | reflexivity].
Qed.

(** X14: Over any session, successful or not, the history only grows at the
    front: the entries it had are still there, unchanged and in order, and
    the number of new entries is the number of rounds that succeeded. *)
Theorem history_grows_by_successes (rounds : list (Form * World)) (a : App) :
  exists new,
    history (signals (session rounds a)) = new ++ history (signals a) /\
    length new = successes rounds a.
Proof.
  revert a. induction rounds as [|r rounds IH]; intros a.
  - exists []. split; reflexivity.
  - destruct (IH (round a r)) as (new & Hh & Hlen).
    destruct (round_history a r) as (new1 & Hh1 & Hlen1).
    exists (new ++ new1). split.
    + unfold AppComponent.session in *. cbn [fold_left].
      rewrite Hh, Hh1. apply app_assoc.
    + rewrite length_app, Hlen, Hlen1. cbn [AppComponent.successes].
      apply Nat.add_comm.
Qed.

(** The only storage key a generation writes. *)
Lemma generate_storage_frame (w : World) (a : App) (k : str) :
  k <> storageKey ->
  localStorage (generate w a) !! k = localStorage a !! k.
Proof.
  intros Hk. destruct (succeeded w a) eqn:Hs.
  - rewrite (succeeded_storage _ _ Hs). destruct (quotaExceeded w);
      [reflexivity|]. apply lookup_insert_ne. congruence.
  - destruct (not_succeeded_keeps _ _ Hs) as [_ ->]. reflexivity.
Qed.

(** X15: Neither a session of generations nor clearing the history reads or
    writes any storage key but the history's own. *)
Theorem other_storage_keys_untouched
    (rounds : list (Form * World)) (confirmed : bool) (a : App) (k : str) :
  k <> storageKey ->
  localStorage (session rounds a) !! k = localStorage a !! k /\
  localStorage (clearHistory confirmed a) !! k = localStorage a !! k.
Proof.
  intros Hk. split.
  - revert a. induction rounds as [|r rounds IH]; intros a; [reflexivity|].
    unfold AppComponent.session in *. cbn [fold_left]. rewrite IH.
    unfold AppComponent.round. rewrite generate_storage_frame by exact Hk.
    reflexivity.
  - destruct confirmed; [|reflexivity].
    apply lookup_delete_ne. congruence.
Qed.

(** X16: Saving and reloading: when the serialiser gives a non-empty text for
    the history left by a successful generation and the parser reads that
    text back, a component constructed over the storage left behind starts
    with that same history. *)
Theorem persist_then_reload (w : World) (a : App) :
  let a' := generate w a in
  succeeded w a = true ->
  quotaExceeded w = false ->
  JSON_stringify (history (signals a')) <> [] ->
  JSON_parse_history (JSON_stringify (history (signals a')))
    = Return (history (signals a')) ->
  history (signals (construct (localStorage a'))) = history (signals a').
Proof.
  intros a' Hs Hq Hne Hrt. subst a'.
  unfold AppComponent.construct, loadHistoryFromStorage.
  cbn [localStorage]. rewrite (succeeded_storage _ _ Hs), Hq.
  rewrite lookup_insert_eq.
  destruct (JSON_stringify (history (signals (generate w a)))) as [|c t] eqn:E;
    [congruence|].
  cbn [truthy]. rewrite Hrt. reflexivity.
Qed.

(** X17: When [setItem] throws, a successful generation still adds its entry in
    memory and shows no error; the storage keeps what it had, so a reload
    would not see the entry. *)
Theorem quota_exceeded_keeps_memory_history (w : World) (a : App) :
  succeeded w a = true ->
  quotaExceeded w = true ->
  localStorage (generate w a) = localStorage a /\
  error (signals (generate w a)) = None /\
  length (history (signals (generate w a))) = S (length (history (signals a))) /\
  construct (localStorage (generate w a)) = construct (localStorage a).
Proof.
  intros Hs Hq.
  assert (localStorage (generate w a) = localStorage a) as Hst
    by (rewrite (succeeded_storage _ _ Hs), Hq; reflexivity).
  split; [exact Hst|]. split; [|split].
  - unfold AppComponent.succeeded in Hs. apply andb_true_iff in Hs as [_ Hs].
    destruct (error (signals (generate w a))); [discriminate | reflexivity].
  - destruct (succeeded_inv _ _ _ _ Hs) as (g & out & res & _ & Hh & _).
    rewrite Hh. reflexivity.
  - rewrite Hst. reflexivity.
Qed.

(** X18: Loading is fail-safe: a constructed component differs from the initial
    one in its history only, it never shows an error, and its history is
    empty unless the slot holds a non-empty text that parses, in which case
    it is the parsed list. *)
Theorem construct_fail_safe (storage : gmap str str) :
  let a := construct storage in
  localStorage a = storage /\ sent a = [] /\
  signals a = set_history (history (signals a)) initial /\
  (history (signals a) <> [] ->
   exists text,
     storage !! storageKey = Some text /\ text <> [] /\
     JSON_parse_history text = Return (history (signals a))).
Proof.
  cbn zeta. unfold AppComponent.construct, loadHistoryFromStorage.
  cbn [localStorage].
  destruct (storage !! storageKey) as [[|c text]|] eqn:Hslot; cbn [truthy];
    try (repeat split; try reflexivity; cbn; congruence).
  destruct (JSON_parse_history (c :: text)) as [h|e] eqn:Hp;
    (split; [reflexivity|]); (split; [reflexivity|]);
    (split; [reflexivity|]); cbn; [|congruence].
  intros _. exists (c :: text). split; [reflexivity|].
  split; [discriminate | exact Hp].
Qed.

(** X19: Switching the feature empties the input, the context, the file name,
    the output, the result and the error, and keeps the dialect and the
    history; a generation asked right after it is ignored. *)
Theorem select_feature_then_generate_is_ignored
    (w : World) (feature : Feature) (a : App) :
  let a' := on_signals (selectFeature feature) a in
  generate w a' = a' /\
  selectedFeature (signals a') = feature /\
  userInput (signals a') = [] /\ schemaContext (signals a') = [] /\
  uploadedFileName (signals a') = [] /\ output (signals a') = [] /\
  optimizationResult (signals a') = JNull /\ error (signals a') = None /\
  selectedDb (signals a') = selectedDb (signals a) /\
  history (signals a') = history (signals a).
Proof.
  cbn zeta. split; [|repeat split; reflexivity].
  unfold AppComponent.generate.
  replace (ignored (signals (on_signals (selectFeature feature) a)))
    with true by reflexivity.
  reflexivity.
Qed.



(** One generation keeps the invariant of the history entries. *)
Lemma generate_keeps_entries (P : HistoryItem -> Prop) (w : World) (a : App) :
  (forall out res,
     (selectedFeature (signals a) = OptimizeQuery -> out = []) ->
     (selectedFeature (signals a) <> OptimizeQuery -> res = JNull) ->
     P {| item_id := now w; item_feature := selectedFeature (signals a);
          item_db := selectedDb (signals a);
          item_userInput := userInput (signals a);
          item_schemaContext := schemaContext (signals a);
          item_uploadedFileName := uploadedFileName (signals a);
          item_output := out; item_optimizationResult := res |}) ->
  Forall P (history (signals a)) ->
  Forall P (history (signals (generate w a))).
Proof.
  intros Hnew Hold. destruct (succeeded w a) eqn:Hs.
  - destruct (succeeded_inv _ _ _ _ Hs) as (g & out & res & _ & Hh & Hcase).
    rewrite Hh. constructor; [|exact Hold].
    apply Hnew; destruct Hcase as [(Hf & -> & _)|(Hf & -> & _)]; congruence.
  - destruct (not_succeeded_keeps _ _ Hs) as [-> _]. exact Hold.
Qed.

(** X21: Every session keeps this invariant of the history: an Optimize Query
    entry has an empty output and every other entry has a null
    optimizationResult, so no entry has both fields populated. *)
Theorem history_entries_stay_exclusive
    (rounds : list (Form * World)) (a : App) :
  let exclusive (e : HistoryItem) :=
    (item_feature e = OptimizeQuery -> item_output e = []) /\
    (item_feature e <> OptimizeQuery -> item_optimizationResult e = JNull) in
  Forall exclusive (history (signals a)) ->
  Forall exclusive (history (signals (session rounds a))).
Proof.
  intros exclusive. revert a.
  induction rounds as [|r rounds IH]; intros a H; [exact H|].
  unfold AppComponent.session in *. cbn [fold_left]. apply IH.
  unfold AppComponent.round. apply generate_keeps_entries; [|exact H].
  intros out res Ho Hr. split; cbn; assumption.
Qed.

(** X22: An uploaded file reaches the model: once a file with non-blank text is
    loaded, the context is visible, and a non-ignored generation for a
    feature other than Design Schema issues one request whose contents
    include the text of the file as it is. *)
Theorem uploaded_file_reaches_prompt
    (w : World) (a : App) (g : GoogleGenAI) (name text : str) :
  let a' := on_signals (onFileSelected (FileLoaded name text)) a in
  trim text <> [] ->
  selectedFeature (signals a) <> DesignSchema ->
  ignored (signals a) = false ->
  ai w = Some g ->
  isContextVisible (signals a') = true /\
  uploadedFileName (signals a') = name /\
  exists p,
    (sent (generate w a') = sent a ++ [StreamCall p] \/
     sent (generate w a') = sent a ++ [ContentCall p]) /\
    includes (contents p) text = true.
Proof.
  intros a' Htext Hf Hig Hai. split; [reflexivity|]. split; [reflexivity|].
  assert (forall f db input,
            f <> DesignSchema ->
            includes (userPrompt (getPrompts (feature_name f) db input text))
              text = true) as Hin.
  { intros f db input Hd. rewrite userPrompt_preamble by exact Hd.
    rewrite contextPreamble_present
      by (destruct (trim text); [congruence | reflexivity]).
    repeat rewrite <- app_assoc. find_segment. }
  subst a'. unfold AppComponent.generate.
  replace (ignored (signals (on_signals (onFileSelected (FileLoaded name text)) a)))
    with (ignored (signals a)) by reflexivity.
  rewrite Hig. unfold generateStream, generateStructured. rewrite Hai.
  unfold addToHistory, saveHistoryToStorage.
  cbn [on_signals signals onFileSelected set_isContextVisible fill
       selectedFeature selectedDb userInput schemaContext
       form_feature form_db form_userInput form_schemaContext].
  destruct (selectedFeature (signals a)) eqn:Ef; try congruence;
    match goal with
    | |- context [StreamCall ?r] => exists r
    | |- context [ContentCall ?r] => exists r
    end;
    (split;
     [repeat (cbn; split_step); cbn;
      first [left; reflexivity | right; reflexivity]
     | unfold streamRequest, structuredRequest; cbn [contents] ]).
  - apply (Hin NLtoSQL). discriminate.
  - apply (Hin OptimizeQuery). discriminate.
  - apply (Hin ExplainSQL). discriminate.
  - apply (Hin AnalyzeSuggest). discriminate.
Qed.

End MoreSession.

(** ** Further examples *)

Lemma uninitialized_service_fails_without_request_witness :
  let w := {| ai := None; now := 1000%Z; quotaExceeded := false |} in
  let a := Samples.ready NLtoSQL "list the users" "" in
  sent (generate Samples.stringify Samples.parse w a) = [] /\
  error (signals (generate Samples.stringify Samples.parse w a)) =
    Some (lit "An error occurred while communicating with the AI: Gemini service is not initialized.").
Proof.
  intros w a.
  destruct (uninitialized_service_fails_without_request
              Samples.stringify Samples.parse w a)
    as (Hsent & Herr & _); [vm_compute; reflexivity | reflexivity |].
  split; [exact Hsent|]. rewrite Herr. vm_compute. reflexivity.
Defined.


Lemma result_signals_exclusive_witness :
  let w := Samples.world (Samples.ends [])
             (Response (Some (lit "{}"))) 1000 in
  let a :=
    on_signals (set_output (lit "stale text"))
      (Samples.ready OptimizeQuery "SELECT 1" "") in
  output (signals (generate Samples.stringify Samples.parse w a)) = [].
Proof.
  intros w a.
  destruct (result_signals_exclusive Samples.stringify Samples.parse w a)
    as [H _]; [vm_compute; reflexivity|].
  apply H. reflexivity.
Defined.


Lemma streamed_output_is_concatenation_witness :
  let stream :=
    {| chunks := [Some (lit "SELECT"); Some (lit " 1"); None];
       failure := None |} in
  let w := Samples.world stream Samples.unused 1000 in
  let a :=
    on_signals (set_output (lit "stale text"))
      (Samples.ready NLtoSQL "list the users" "") in
  output (signals (generate Samples.stringify Samples.parse w a)) =
    lit "SELECT 1undefined".
Proof.
  intros stream w a.
  rewrite (streamed_output_is_concatenation Samples.stringify Samples.parse
             w a (Samples.client stream Samples.unused));
    [vm_compute; reflexivity | vm_compute; reflexivity | discriminate
    | reflexivity].
Defined.

Lemma generate_issues_one_request_witness :
  let w := Samples.world (Samples.ends [])
             (Response (Some (lit "{}"))) 1000 in
  let a := Samples.ready OptimizeQuery "SELECT 1" "" in
  exists p,
    sent (generate Samples.stringify Samples.parse w a) = [ContentCall p] /\
    config_responseSchema p = Some optimizeSchema.
Proof.
  intros w a.
  destruct (generate_issues_one_request Samples.stringify Samples.parse w a
              (Samples.client (Samples.ends []) (Response (Some (lit "{}")))))
    as (p & Hsent & _ & _ & Hschema & _);
    [vm_compute; reflexivity | reflexivity |].
  exists p. split; [exact Hsent | exact Hschema].
Defined.

Lemma other_storage_keys_untouched_witness :
  let a :=
    {| signals := signals (Samples.ready NLtoSQL "list the users" "");
       localStorage := {[ lit "theme" := lit "dark" ]};
       sent := [] |} in
  let rounds :=
    [ (Samples.form NLtoSQL "list the users" "",
       Samples.world (Samples.ends [lit "SELECT 1"]) Samples.unused 1000%Z) ] in
  localStorage (session Samples.stringify Samples.parse rounds a)
    !! lit "theme" = Some (lit "dark") /\
  localStorage (clearHistory true a) !! lit "theme" = Some (lit "dark").
Proof.
  intros a rounds.
  destruct (other_storage_keys_untouched Samples.stringify Samples.parse
              rounds true a (lit "theme")) as [-> ->];
    [intros E; vm_compute in E; discriminate E|].
  split; vm_compute; reflexivity.
Defined.

Lemma persist_then_reload_witness :
  let w := Samples.world (Samples.ends [lit "SELECT * FROM users;"])
             Samples.unused 1000 in
  let a := Samples.ready NLtoSQL "list the users" "" in
  history (signals
    (construct Samples.parse_saved
       (localStorage (generate Samples.stringify_saved Samples.parse w a))))
  = Samples.saved.
Proof.
  intros w a.
  rewrite (persist_then_reload Samples.stringify_saved Samples.parse_saved
             Samples.parse w a);
    [vm_compute; reflexivity | vm_compute; reflexivity | reflexivity
    | vm_compute; discriminate | vm_compute; reflexivity].
Defined.

Lemma quota_exceeded_keeps_memory_history_witness :
  let w := {| ai := Some (Samples.client (Samples.ends [lit "SELECT 1"])
                            Samples.unused);
              now := 1000%Z; quotaExceeded := true |} in
  let a := Samples.ready NLtoSQL "list the users" "" in
  localStorage (generate Samples.stringify Samples.parse w a) = ∅ /\
  length (history (signals (generate Samples.stringify Samples.parse w a)))
    = 1%nat.
Proof.
  intros w a.
  destruct (quota_exceeded_keeps_memory_history Samples.stringify
              Samples.parse_history Samples.parse w a)
    as (Hst & _ & Hlen & _); [vm_compute; reflexivity | reflexivity |].
  split; [exact Hst | exact Hlen].
Defined.


Lemma history_entries_stay_exclusive_witness :
  let rounds :=
    [ (Samples.form NLtoSQL "list the users" "",
       Samples.world (Samples.ends [lit "SELECT 1"]) Samples.unused 1000%Z);
      (Samples.form OptimizeQuery "SELECT 1" "",
       Samples.world (Samples.ends []) (Response (Some (lit "{}")))
         2000%Z) ] in
  Forall
    (fun e =>
       (item_feature e = OptimizeQuery -> item_output e = []) /\
       (item_feature e <> OptimizeQuery -> item_optimizationResult e = JNull))
    (history (signals
       (session Samples.stringify Samples.parse rounds Samples.fresh))).
Proof.
  intros rounds.
  apply (history_entries_stay_exclusive Samples.stringify Samples.parse
           rounds Samples.fresh).
  constructor.
Defined.

Lemma uploaded_file_reaches_prompt_witness :
  let w := Samples.world (Samples.ends [lit "SELECT 1"]) Samples.unused 1000 in
  let a := Samples.ready NLtoSQL "list the users" "" in
  let a' :=
    on_signals
      (onFileSelected (FileLoaded (lit "schema.sql")
                         (lit "CREATE TABLE users (id int);"))) a in
  exists p,
    (sent (generate Samples.stringify Samples.parse w a') = [StreamCall p] \/
     sent (generate Samples.stringify Samples.parse w a') = [ContentCall p]) /\
    includes (contents p) (lit "CREATE TABLE users (id int);") = true.
Proof.
  intros w a a'.
  destruct (uploaded_file_reaches_prompt Samples.stringify Samples.parse w a
              (Samples.client (Samples.ends [lit "SELECT 1"]) Samples.unused)
              (lit "schema.sql") (lit "CREATE TABLE users (id int);"))
    as (_ & _ & p & Hsent & Hin);
    [vm_compute; discriminate | discriminate | vm_compute; reflexivity
    | reflexivity |].
  exists p. split; [exact Hsent | exact Hin].
Defined.

(** ** Facts about the form controls and the error handler *)

(** X23: Whatever a file selection leads to, it keeps the typed input, the
    selected feature and dialect, the results, the history and the loading
    flag.  Only a loaded file changes the context and the file name, and
    only a failed read changes the error: a loaded file does not clear an
    error shown before. *)
Theorem file_selection_keeps_input_and_results (ev : FileEvent) (s : Signals) :
  let s' := onFileSelected ev s in
  userInput s' = userInput s /\ selectedFeature s' = selectedFeature s /\
  selectedDb s' = selectedDb s /\ output s' = output s /\
  optimizationResult s' = optimizationResult s /\
  history s' = history s /\ loading s' = loading s /\
  ignored s' = ignored s /\
  ((forall name text, ev <> FileLoaded name text) ->
   schemaContext s' = schemaContext s /\
   uploadedFileName s' = uploadedFileName s /\
   isContextVisible s' = isContextVisible s) /\
  ((forall message, ev <> FileError message) -> error s' = error s).
Proof.
  destruct ev as [|name text|message]; cbn zeta;
    do 8 (split; [reflexivity|]); split; intros H.
  - repeat split; reflexivity.
  - reflexivity.
  - destruct (H name text). reflexivity.
  - reflexivity.
  - repeat split; reflexivity.
  - destruct (H message). reflexivity.
Qed.

Lemma file_selection_keeps_input_and_results_witness :
  let s := set_error (Some (lit "old error"))
             (signals (Samples.ready NLtoSQL "list the users" "")) in
  error (onFileSelected (FileLoaded (lit "schema.sql") (lit "t(a)")) s)
    = Some (lit "old error") /\
  schemaContext (onFileSelected (FileError None) s) = [] /\
  error (onFileSelected (FileError None) s)
    = Some (lit "Error reading file: undefined").
Proof.
  intros s.
  destruct (file_selection_keeps_input_and_results
              (FileLoaded (lit "schema.sql") (lit "t(a)")) s)
    as (_ & _ & _ & _ & _ & _ & _ & _ & _ & He).
  destruct (file_selection_keeps_input_and_results (FileError None) s)
    as (_ & _ & _ & _ & _ & _ & _ & _ & Hc & _).
  split; [apply He; discriminate|].
  split; [apply Hc; discriminate | vm_compute; reflexivity].
Defined.

(** X24: Toggling the visibility of the context twice restores the signals, and
    one toggle changes nothing that [generate] reads. *)
Theorem toggle_twice_is_identity (w : World) (a : App)
    (JSON_stringify : list HistoryItem -> str)
    (JSON_parse : str -> outcome JsonValue) :
  toggleContextVisibility (toggleContextVisibility (signals a)) = signals a /\
  isContextVisible (toggleContextVisibility (signals a))
    = negb (isContextVisible (signals a)) /\
  history (signals (generate JSON_stringify JSON_parse w
                      (on_signals toggleContextVisibility a)))
    = history (signals (generate JSON_stringify JSON_parse w a)) /\
  sent (generate JSON_stringify JSON_parse w
          (on_signals toggleContextVisibility a))
    = sent (generate JSON_stringify JSON_parse w a).
Proof.
  split; [|split; [reflexivity|]].
  - destruct (signals a) as [? ? ? ? ? ? ? ? ? ? ? v].
    unfold toggleContextVisibility, set_isContextVisible. cbn.
    rewrite negb_involutive. reflexivity.
  - unfold generate.
    replace (ignored (signals (on_signals toggleContextVisibility a)))
      with (ignored (signals a)) by reflexivity.
    destruct (ignored (signals a)); [split; reflexivity|].
    unfold generateStream, generateStructured, structuredBody, addToHistory,
      saveHistoryToStorage.
    cbn [on_signals signals toggleContextVisibility set_isContextVisible
         selectedFeature selectedDb userInput schemaContext uploadedFileName].
    split; repeat (cbn; split_step); cbn; reflexivity.
Qed.

(** X25: The handler of [generate] on the thrown value alone: a message that
    contains "token count exceeds" or the digits "400" anywhere gives the
    context-too-large text; every other message is appended to the generic
    prefix; a thrown value that is not an [Error] is reported as an unknown
    error. *)
Theorem handler_message_cases (e : Thrown) :
  (includes (rawMessage e) (lit "token count exceeds") = true \/
   includes (rawMessage e) (lit "400") = true ->
   displayMessage e = context_too_large) /\
  (includes (rawMessage e) (lit "token count exceeds") = false ->
   includes (rawMessage e) (lit "400") = false ->
   displayMessage e = generic_prefix ++ rawMessage e /\
   includes (displayMessage e) (rawMessage e) = true) /\
  displayMessage NonError =
    generic_prefix ++ lit "An unknown error occurred.".
Proof.
  split; [|split].
  - apply displayMessage_cases.
  - intros H1 H2.
    rewrite (proj2 (displayMessage_cases e) H1 H2).
    split; [reflexivity|]. apply includes_app_r, includes_self.
  - vm_compute. reflexivity.
Qed.

Lemma handler_message_cases_witness :
  displayMessage (Error (lit "row 1400 is locked")) = context_too_large /\
  displayMessage (Error (lit "network down")) =
    lit "An error occurred while communicating with the AI: network down".
Proof.
  split.
  - apply (handler_message_cases (Error (lit "row 1400 is locked"))).
    right. vm_compute. reflexivity.
  - destruct (handler_message_cases (Error (lit "network down")))
      as (_ & H & _).
    destruct H as [-> _]; vm_compute; reflexivity.
Defined.

Lemma legacy_failures_are_fixed_messages_witness :
  thrown (snd (LegacyService.generateStream
                 (Samples.client (Samples.breaks [] "socket closed")
                    Samples.unused)
                 (lit "NL-to-SQL") (lit "MySQL") (lit "one") []))
    = Some (Error stream_failed).
Proof.
  destruct (legacy_failures_are_fixed_messages Samples.parse
              (Samples.client (Samples.breaks [] "socket closed")
                 Samples.unused)
              (lit "NL-to-SQL") (lit "MySQL") (lit "one") [])
    as (_ & _ & H & _).
  match goal with
  | |- ?x = _ => destruct x as [e|] eqn:E
  end.
  - rewrite (H e eq_refl). reflexivity.
  - vm_compute in E. discriminate E.
Defined.

Lemma construct_fail_safe_witness :
  let storage : gmap str str := {[ storageKey := Samples.saved_text ]} in
  exists text,
    storage !! storageKey = Some text /\ text <> [] /\
    Samples.parse_saved text =
      Return (history (signals (construct Samples.parse_saved storage))).
Proof.
  intros storage.
  destruct (construct_fail_safe Samples.parse_saved storage)
    as (_ & _ & _ & H).
  apply H. vm_compute. discriminate.
Defined.
